(** * Traffic accident alerts: detection and approval pipeline

    A shallow embedding of the collision-inference service
    ([MLService], file [services/mlService.js]), of the pending-alert routes
    ([routes/alerts.js], the router mounted on [/api/pending-alerts]) and of
    the stream routes ([routes/streams.js], Supabase flavour), followed by
    the properties established about them.

    Conventions of the embedding.
    - JavaScript numbers are idealised as real numbers ([R]): rounding of
      IEEE-754 doubles, infinities and NaN are not modelled.  Integer
      columns of the database are [Z].  Rounding to nearest can carry a
      sum onto the end of its range, so the ranges of generated values
      are stated closed at the end a sum approaches; module [Binary64]
      replays the generator on doubles and shows the end is reached.
    - [Math.random()] is a process-wide source: it is a function
      [random : nat -> R] giving the value of the n-th call, and every
      function that draws from it threads the number of draws made so far.
    - [new Date()] / [Date.now()] are explicit [Time] arguments (milliseconds
      since the epoch).  Clock reads separated by an [await] are separate
      arguments.
    - A Supabase table is the list of its rows; the query builder
      ([select], [update], [insert], [eq], [single]) is modelled on lists.
      Columns the database maintains on its own ([created_at],
      [updated_at]) are left out.
    - A route handler maps the state of the world before the request to a
      response and the state after it. *)

From Stdlib Require Import Reals Lra Lia ZArith Bool Arith.
From Stdlib Require Floats.
From Stdlib Require Import DecimalString String List.
Import ListNotations.

Set Implicit Arguments.

(** Milliseconds since the epoch. *)
Definition Time := Z.
Bind Scope Z_scope with Time.

(** ** JavaScript helpers *)

Module JS.

(** [a || d] on an optional string: [undefined], [null] and the empty
    string are falsy. *)
Definition or_string (a : option string) (d : string) : string :=
  match a with
  | Some s => if String.eqb s EmptyString then d else s
  | None => d
  end.

(** [a || d] on an optional number: [undefined], [null] and [0] are
    falsy. *)
Definition or_int (a : option Z) (d : Z) : Z :=
  match a with
  | Some n => if Z.eqb n 0 then d else n
  | None => d
  end.

(** Decimal rendering of a natural number, as template literals do. *)
Definition show_nat (n : nat) : string :=
  NilEmpty.string_of_uint (Nat.to_uint n).

Definition show_time (t : Time) : string := show_nat (Z.to_nat t).

(** [Math.floor]. *)
Definition floor (x : R) : Z := Zfloor x.

(** [Number.prototype.toFixed(2)] on a number of magnitude below 10^21
    (from there on the method answers in exponent notation, which is not
    given here): a minus sign when the number is negative, then the
    magnitude rounded to hundredths, a tie going up, with two digits
    after the point. *)
Definition toFixed2 (x : R) : string :=
  let s := if Rlt_dec x 0 then "-"%string else EmptyString in
  let h := Z.to_nat (Zfloor (Rabs x * 100 + / 2)) in
  let frac := Nat.modulo h 100 in
  String.append s
    (String.append (show_nat (Nat.div h 100))
       (String.append "."
          (String.append (if Nat.ltb frac 10 then "0" else "")
             (show_nat frac)))).

End JS.

(** ** The collision-inference service (class [MLService]) *)

Module MLService.

Local Open Scope R_scope.

Record BoundingBox := {
  x : R;
  y : R;
  width : R;
  height : R
}.

(** An element of [detections] (a tracked object). *)
Record Detection := {
  det_class : string;
  det_confidence : R;
  boundingBox : BoundingBox;
  det_id : string
}.

Record Point := { px : R; py : R }.

(** An element of [accidents] (a collision candidate). *)
Record Accident := {
  vehicle1 : string;
  vehicle2 : string;
  acc_confidence : R;
  distance : R;
  location : Point;
  severity : string;
  acc_timestamp : Time
}.

Record FrameAnalysis := {
  vehicleCount : nat;
  personCount : nat;
  objectCount : nat;
  averageConfidence : R;
  crowdLevel : string
}.

Record DetectionResult := {
  detections : list Detection;
  accidentDetected : bool;
  accidents : list Accident;
  confidence : R;
  timestamp : Time;
  frameAnalysis : FrameAnalysis
}.

(** [this.detectionClasses.vehicle] *)
Definition vehicleClasses : list string :=
  ["car"; "truck"; "bus"; "motorcycle"; "bicycle"]%string.

(** [this.accidentThresholds] *)
Definition minVehicles : nat := 2.
Definition maxDistanceBetweenVehicles : R := 100.
Definition collisionConfidenceThreshold : R := 0.7.

(** [this.detectionClasses.vehicle.includes(d.class)] *)
Definition isVehicle (d : Detection) : bool :=
  existsb (String.eqb (det_class d)) vehicleClasses.

Definition isPerson (d : Detection) : bool :=
  String.eqb (det_class d) "person".

Definition calculateDistance (box1 box2 : BoundingBox) : R :=
  let c1x := x box1 + width box1 / 2 in
  let c1y := y box1 + height box1 / 2 in
  let c2x := x box2 + width box2 / 2 in
  let c2y := y box2 + height box2 / 2 in
  sqrt ((c1x - c2x) ^ 2 + (c1y - c2y) ^ 2).

Definition calculateSeverity (confidence : R) (distance : R) : string :=
  if Rlt_dec 0.85 confidence then "critical"%string
  else if Rlt_dec 0.75 confidence then "high"%string
  else if Rlt_dec 0.65 confidence then "medium"%string
  else "low"%string.

(** [accidents.reduce((sum, acc) => sum + acc.confidence, 0)] *)
Definition sumConfidence (accidents : list Accident) : R :=
  fold_left (fun sum acc => sum + acc_confidence acc) accidents 0.

Definition calculateAccidentConfidence (accidents : list Accident) : R :=
  if Nat.eqb (length accidents) 0 then 0
  else
    let avgConfidence := sumConfidence accidents / INR (length accidents) in
    Rmin 1 (avgConfidence + (if Nat.ltb 1 (length accidents) then 0.1 else 0)).

Definition analyzeFrameContext (detections : list Detection) : FrameAnalysis :=
  let vehicleCount := length (filter isVehicle detections) in
  let personCount := length (filter isPerson detections) in
  let avgConfidence :=
    if Nat.ltb 0 (length detections)
    then fold_left (fun sum d => sum + det_confidence d) detections 0
         / INR (length detections)
    else 0 in
  {| vehicleCount := vehicleCount;
     personCount := personCount;
     objectCount := length detections;
     averageConfidence := avgConfidence;
     crowdLevel := if Nat.ltb 4 vehicleCount then "heavy"%string
                   else if Nat.ltb 2 vehicleCount then "moderate"%string
                   else "light"%string |}.

Section Service.

(** [random n] is the value returned by the n-th call of
    [Math.random()]. *)
Variable random : nat -> R.

(** [calculateCollisionConfidence] makes one draw, the [k]-th. *)
Definition calculateCollisionConfidence
    (vehicle1 vehicle2 : Detection) (distance : R) (k : nat) : R :=
  let confidenceProduct := det_confidence vehicle1 * det_confidence vehicle2 in
  let distanceFactor := Rmax 0 (1 - distance / 200) in
  let baseCollision := random k * 0.3 in
  Rmin 1 (confidenceProduct * distanceFactor * 1.2 + baseCollision).

(** The body of the inner loop of [detectAccidents] for one pair
    [vehicles[i]], [vehicles[j]]: the candidate pushed, if any, and the
    number of draws made afterwards. *)
Definition checkPair (now : Time) (vehicle1 vehicle2 : Detection) (k : nat)
  : option Accident * nat :=
  let distance :=
    calculateDistance (boundingBox vehicle1) (boundingBox vehicle2) in
  if Rlt_dec distance maxDistanceBetweenVehicles then
    let collisionConfidence :=
      calculateCollisionConfidence vehicle1 vehicle2 distance k in
    if Rlt_dec collisionConfidenceThreshold collisionConfidence then
      (Some {| vehicle1 := det_class vehicle1;
               vehicle2 := det_class vehicle2;
               acc_confidence := collisionConfidence;
               distance := distance;
               location :=
                 {| px := (x (boundingBox vehicle1) + x (boundingBox vehicle2)) / 2;
                    py := (y (boundingBox vehicle1) + y (boundingBox vehicle2)) / 2 |};
               severity := calculateSeverity collisionConfidence distance;
               acc_timestamp := now |},
       S k)
    else (None, S k)
  else (None, k).

(** [for (let j = i + 1; j < vehicles.length; j++)], with [rest] the
    vehicles after index [i]. *)
Fixpoint innerLoop (now : Time) (vehicle1 : Detection)
    (rest : list Detection) (k : nat) : list Accident * nat :=
  match rest with
  | [] => ([], k)
  | vehicle2 :: rest' =>
      let '(pushed, k1) := checkPair now vehicle1 vehicle2 k in
      let '(later, k2) := innerLoop now vehicle1 rest' k1 in
      (match pushed with Some a => a :: later | None => later end, k2)
  end.

(** [for (let i = 0; i < vehicles.length; i++)] *)
Fixpoint outerLoop (now : Time) (vehicles : list Detection) (k : nat)
  : list Accident * nat :=
  match vehicles with
  | [] => ([], k)
  | vehicle1 :: rest =>
      let '(first, k1) := innerLoop now vehicle1 rest k in
      let '(later, k2) := outerLoop now rest k1 in
      (first ++ later, k2)
  end.

Definition detectAccidents (now : Time) (detections : list Detection)
    (k : nat) : list Accident * nat :=
  let vehicles := filter isVehicle detections in
  if Nat.ltb (length vehicles) minVehicles then ([], k)
  else outerLoop now vehicles k.

(** The object pushed by iteration [i] of the vehicle loop of
    [performObjectDetection]; it makes six draws, [k] to [k + 5]. *)
Definition newVehicle (now : Time) (i k : nat) : Detection :=
  let vehicleClass :=
    nth (Z.to_nat (JS.floor (random k * INR (length vehicleClasses))))
        vehicleClasses "undefined"%string in
  {| det_class := vehicleClass;
     det_confidence := 0.85 + random (k + 1) * 0.15;
     boundingBox :=
       {| x := random (k + 2) * 800;
          y := random (k + 3) * 400;
          width := 80 + random (k + 4) * 120;
          height := 60 + random (k + 5) * 100 |};
     det_id := String.append "vehicle_"
                 (String.append (JS.show_nat i)
                    (String.append "_" (JS.show_time now))) |}.

(** [for (let i = 0; i < vehicleCount; i++)], with [n] iterations left
    from index [i]. *)
Fixpoint vehicleLoop (now : Time) (n i k : nat) : list Detection * nat :=
  match n with
  | O => ([], k)
  | S n' =>
      let '(later, k') := vehicleLoop now n' (S i) (k + 6) in
      (newVehicle now i k :: later, k')
  end.

(** The pedestrian pushed when the draw exceeds 0.7; two draws for its
    confidence and position follow the deciding one. *)
Definition newPerson (now : Time) (k : nat) : Detection :=
  {| det_class := "person";
     det_confidence := 0.75 + random k * 0.25;
     boundingBox :=
       {| x := random (k + 1) * 800;
          y := random (k + 2) * 400;
          width := 30;
          height := 70 |};
     det_id := String.append "person_" (JS.show_time now) |}.

Definition performObjectDetection (now : Time) (k : nat)
  : list Detection * nat :=
  let vehicleCount := Z.to_nat (JS.floor (random k * 5) + 2) in
  let '(vehicles, k1) := vehicleLoop now vehicleCount 0 (k + 1) in
  if Rlt_dec 0.7 (random k1)
  then (vehicles ++ [newPerson now (k1 + 1)], (k1 + 4)%nat)
  else (vehicles, (k1 + 1)%nat).

(** The object returned by [processFrame] once [detections] and
    [accidents] are known. *)
Definition frameResult (now : Time) (detections : list Detection)
    (accidents : list Accident) : DetectionResult :=
  {| detections := detections;
     accidentDetected := Nat.ltb 0 (length accidents);
     accidents := accidents;
     confidence := if Nat.ltb 0 (length accidents)
                   then calculateAccidentConfidence accidents else 0;
     timestamp := now;
     frameAnalysis := analyzeFrameContext detections |}.

(** [processFrame] from its second statement on: the analysis of a
    given list of detections. *)
Definition analyzeDetections (now : Time) (detections : list Detection)
    (k : nat) : DetectionResult * nat :=
  let '(accidents, k1) := detectAccidents now detections k in
  (frameResult now detections accidents, k1).

(** Nothing in the body throws on these types, so the [catch] branch
    ([getDefaultDetectionResult]) is not taken. *)
Definition processFrame (now : Time) (k : nat) : DetectionResult * nat :=
  let '(detections, k1) := performObjectDetection now k in
  analyzeDetections now detections k1.

End Service.

End MLService.

(** ** The Supabase store: tables, rows and the query builder *)

Module Supabase.

(** Primary keys ([uuid] columns filled by [gen_random_uuid()]). *)
Definition uuid := nat.
Bind Scope nat_scope with uuid.

(** The [{ data, error }] object a query resolves to. *)
Record Result (A : Type) := {
  data : option A;
  error : option string
}.

Definition resolved {A : Type} (a : A) : Result A :=
  {| data := Some a; error := None |}.

Definition failed {A : Type} (e : string) : Result A :=
  {| data := None; error := Some e |}.

Section Table.

Variable Row : Type.
Variable row_id : Row -> uuid.

(** [.eq('id', id)] *)
Definition eq_id (id : uuid) (r : Row) : bool := Nat.eqb (row_id r) id.

(** [.select('*').eq('id', id)] *)
Definition select_eq (id : uuid) (table : list Row) : list Row :=
  filter (eq_id id) table.

(** [.update(fields).eq('id', id)] *)
Definition update_eq (fields : Row -> Row) (id : uuid) (table : list Row)
  : list Row :=
  map (fun r => if eq_id id r then fields r else r) table.

(** [.single()]: the rows must be exactly one, anything else is the
    error PGRST116. *)
Definition single (rows : list Row) : Result Row :=
  match rows with
  | [r] => resolved r
  | _ => failed "PGRST116"
  end.

End Table.

(** [status] of a stream: CHECK (status IN ('active', 'inactive',
    'error', 'alert')). *)
Inductive StreamStatus := active | inactive | stream_error | alert.

(** [status] of a pending alert: CHECK (status IN ('pending',
    'approved', 'rejected')). *)
Inductive PendingStatus := pending | approved | rejected.

(** [status] of an alert: CHECK (status IN ('pending', 'sent',
    'acknowledged', 'resolved')). *)
Inductive AlertStatus := alert_pending | sent | acknowledged | resolved_.

(** [type] of an alert. *)
Inductive AlertType := accident | traffic_jam | weather | system.

(** A row of [streams]. *)
Record Stream := {
  stream_id : uuid;
  stream_url : string;
  stream_location : string;
  stream_latitude : option R;
  stream_longitude : option R;
  stream_status : StreamStatus;
  is_processing : bool;
  last_processed : option Time;
  accident_count : Z;
  stream_description : option string;
  stream_tags : list string
}.

(** An element of [detection_data.boundingBoxes]. *)
Record BoxEntry := {
  box_x : R;
  box_y : R;
  box_width : R;
  box_height : R;
  box_class : string;
  box_confidence : R
}.

(** The [detection_data] column (jsonb): the fields
    [handleAccidentDetection] writes and the ones the approve route
    reads; a field is [None] when the object does not have it. *)
Record DetectionData := {
  dd_accidents : list MLService.Accident;
  dd_vehicles : option MLService.FrameAnalysis;
  dd_frameTimestamp : option Time;
  dd_location : option string;
  dd_latitude : option R;
  dd_longitude : option R;
  dd_severity : option string;
  dd_boundingBoxes : list BoxEntry;
  dd_accident_count : option Z
}.

(** A row of [pending_alerts]. *)
Record PendingAlert := {
  pa_id : uuid;
  pa_stream_id : uuid;
  pa_detection_data : DetectionData;
  pa_frame_timestamp : Time;
  pa_confidence : R;
  pa_status : PendingStatus;
  approved_by : option string;
  approved_at : option Time;
  rejection_reason : option string
}.

(** A row of [alerts]. *)
Record Alert := {
  alert_id : uuid;
  alert_stream_id : uuid;
  alert_location : string;
  alert_latitude : option R;
  alert_longitude : option R;
  alert_severity : string;
  alert_type : AlertType;
  alert_status : AlertStatus;
  alert_confidence : R;
  alert_detection_data : DetectionData;
  alert_description : string;
  sent_at : option Time;
  acknowledged_at : option Time;
  resolved_at : option Time
}.

(** Messages given to [io.emit] and [io.to(room).emit]. *)
Inductive Event :=
| stream_started (stream : Stream)
| stream_stopped (stream : Stream)
| detection_result (room : uuid) (streamId : uuid)
    (result : MLService.DetectionResult)
| accident_detected_pending (pendingAlert : option PendingAlert)
    (stream : Stream) (detectionResult : MLService.DetectionResult)
| alert_approved (pendingAlertId : uuid) (finalAlert : option Alert)
| alert_rejected (alert : PendingAlert).

(** A timer made by [setInterval] in [processStreamWithML]: its handle
    and the [stream] object its callback closes over. *)
Record Interval := {
  handle : nat;
  interval_stream : Stream
}.

(** The state the routes act on: the three tables, the next key the
    database hands out, the messages emitted so far and the timers that
    are set. *)
Record World := {
  streams : list Stream;
  pending_alerts : list PendingAlert;
  alerts : list Alert;
  next_uuid : uuid;
  emitted : list Event;
  intervals : list Interval;
  next_handle : nat
}.

Definition with_streams (t : list Stream) (w : World) : World :=
  {| streams := t; pending_alerts := pending_alerts w; alerts := alerts w;
     next_uuid := next_uuid w; emitted := emitted w;
     intervals := intervals w; next_handle := next_handle w |}.

Definition with_pending_alerts (t : list PendingAlert) (w : World) : World :=
  {| streams := streams w; pending_alerts := t; alerts := alerts w;
     next_uuid := next_uuid w; emitted := emitted w;
     intervals := intervals w; next_handle := next_handle w |}.

(** [io.emit(...)]. *)
Definition emit (e : Event) (w : World) : World :=
  {| streams := streams w; pending_alerts := pending_alerts w;
     alerts := alerts w; next_uuid := next_uuid w;
     emitted := emitted w ++ [e];
     intervals := intervals w; next_handle := next_handle w |}.

(** [setInterval(callback, 5000)], the callback closing over [stream]. *)
Definition setInterval (stream : Stream) (w : World) : World :=
  {| streams := streams w; pending_alerts := pending_alerts w;
     alerts := alerts w; next_uuid := next_uuid w; emitted := emitted w;
     intervals := intervals w
                  ++ [{| handle := next_handle w; interval_stream := stream |}];
     next_handle := S (next_handle w) |}.

(** [clearInterval(processInterval)]. *)
Definition clearInterval (h : nat) (w : World) : World :=
  {| streams := streams w; pending_alerts := pending_alerts w;
     alerts := alerts w; next_uuid := next_uuid w; emitted := emitted w;
     intervals := filter (fun i => negb (Nat.eqb (handle i) h)) (intervals w);
     next_handle := next_handle w |}.

(** Foreign key [REFERENCES streams(id)]. *)
Definition stream_exists (id : uuid) (w : World) : bool :=
  existsb (eq_id stream_id id) (streams w).

(** CHECK (severity IN ('low', 'medium', 'high', 'critical')). *)
Definition valid_severity (s : string) : bool :=
  existsb (String.eqb s) ["low"; "medium"; "high"; "critical"]%string.

(** [.from('alerts').insert([row]).select().single()]: the database
    fills the key and rejects a row that breaks a constraint of the
    table. *)
Definition insert_alert (row : uuid -> Alert) (w : World)
  : Result Alert * World :=
  let r := row (next_uuid w) in
  if valid_severity (alert_severity r) && stream_exists (alert_stream_id r) w
  then (resolved r,
        {| streams := streams w; pending_alerts := pending_alerts w;
           alerts := alerts w ++ [r]; next_uuid := S (next_uuid w);
           emitted := emitted w; intervals := intervals w;
           next_handle := next_handle w |})
  else (failed "23514", w).

(** [.from('pending_alerts').insert([row]).select().single()]. *)
Definition insert_pending_alert (row : uuid -> PendingAlert) (w : World)
  : Result PendingAlert * World :=
  let r := row (next_uuid w) in
  if stream_exists (pa_stream_id r) w
  then (resolved r,
        {| streams := streams w; pending_alerts := pending_alerts w ++ [r];
           alerts := alerts w; next_uuid := S (next_uuid w);
           emitted := emitted w; intervals := intervals w;
           next_handle := next_handle w |})
  else (failed "23503", w).

End Supabase.

(** What a handler sends: [res.json(body)] (status 200) or
    [res.status(code).json({ error })]. *)
Inductive Response (A : Type) :=
| Json (body : A)
| ErrorJson (code : nat) (error : string).

Arguments ErrorJson {A} code error.

(** ** The pending-alert routes ([/api/pending-alerts]) *)

Module PendingAlerts.

Import Supabase.

(** Body of the approve response. *)
Record Approved := {
  approve_message : string;
  pendingAlert : PendingAlert;
  finalAlert : option Alert
}.

(** Body of the reject response. *)
Record Rejected := {
  reject_message : string;
  rejected_alert : PendingAlert
}.

(** The fields written by the update of the approve route. *)
Definition approve_fields (by_ : option string) (now : Time)
    (p : PendingAlert) : PendingAlert :=
  {| pa_id := pa_id p;
     pa_stream_id := pa_stream_id p;
     pa_detection_data := pa_detection_data p;
     pa_frame_timestamp := pa_frame_timestamp p;
     pa_confidence := pa_confidence p;
     pa_status := approved;
     approved_by := Some (JS.or_string by_ "system");
     approved_at := Some now;
     rejection_reason := rejection_reason p |}.

(** [alertData], completed by the key the database gives the row. *)
Definition alertData (pendingAlert : PendingAlert) (now : Time) (id : uuid)
  : Alert :=
  let detection_data := pa_detection_data pendingAlert in
  {| alert_id := id;
     alert_stream_id := pa_stream_id pendingAlert;
     alert_location := JS.or_string (dd_location detection_data) "Unknown";
     alert_latitude := dd_latitude detection_data;
     alert_longitude := dd_longitude detection_data;
     alert_severity := JS.or_string (dd_severity detection_data) "high";
     alert_type := accident;
     alert_status := sent;
     alert_confidence := pa_confidence pendingAlert;
     alert_detection_data := detection_data;
     alert_description :=
       String.append "Accident detected with "
         (String.append (JS.toFixed2 (pa_confidence pendingAlert))
            " confidence");
     sent_at := Some now;
     acknowledged_at := None;
     resolved_at := None |}.

(** The fields written to the owning stream by the approve route. *)
Definition alert_fields (pendingAlert : PendingAlert) (s : Stream) : Stream :=
  {| stream_id := stream_id s;
     stream_url := stream_url s;
     stream_location := stream_location s;
     stream_latitude := stream_latitude s;
     stream_longitude := stream_longitude s;
     stream_status := alert;
     is_processing := is_processing s;
     last_processed := last_processed s;
     accident_count :=
       JS.or_int (dd_accident_count (pa_detection_data pendingAlert)) 1;
     stream_description := stream_description s;
     stream_tags := stream_tags s |}.

(** [router.post('/:id/approve')].  [t_update] and [t_insert] are the
    clock at the update of the pending alert and at the construction of
    [alertData].  An update that only writes literals of the right type
    cannot fail, so [updateError] is never set. *)
Definition approve (id : uuid) (by_ : option string)
    (t_update t_insert : Time) (w : World) : Response Approved * World :=
  let fetched := single (select_eq pa_id id (pending_alerts w)) in
  match error fetched with
  | Some _ => (ErrorJson 500 "Failed to approve pending alert", w)
  | None =>
    match data fetched with
    | None => (ErrorJson 404 "Pending alert not found", w)
    | Some pendingAlert =>
      let w1 :=
        with_pending_alerts
          (update_eq pa_id (approve_fields by_ t_update) id (pending_alerts w))
          w in
      let '(inserted, w2) := insert_alert (alertData pendingAlert t_insert) w1 in
      match error inserted with
      | Some _ => (ErrorJson 500 "Failed to approve pending alert", w2)
      | None =>
        let w3 :=
          with_streams
            (update_eq stream_id (alert_fields pendingAlert)
               (pa_stream_id pendingAlert) (streams w2))
            w2 in
        let w4 := emit (alert_approved id (data inserted)) w3 in
        (Json {| approve_message := "Alert approved and created";
                 pendingAlert := pendingAlert;
                 finalAlert := data inserted |},
         w4)
      end
    end
  end.

(** The fields written by the update of the reject route. *)
Definition reject_fields (reason by_ : option string) (now : Time)
    (p : PendingAlert) : PendingAlert :=
  {| pa_id := pa_id p;
     pa_stream_id := pa_stream_id p;
     pa_detection_data := pa_detection_data p;
     pa_frame_timestamp := pa_frame_timestamp p;
     pa_confidence := pa_confidence p;
     pa_status := rejected;
     approved_by := Some (JS.or_string by_ "system");
     approved_at := Some now;
     rejection_reason := Some (JS.or_string reason "User rejected") |}.

(** [router.post('/:id/reject')]: one [update ... select().single()]. *)
Definition reject (id : uuid) (reason by_ : option string) (now : Time)
    (w : World) : Response Rejected * World :=
  let w1 :=
    with_pending_alerts
      (update_eq pa_id (reject_fields reason by_ now) id (pending_alerts w))
      w in
  let updated := single (select_eq pa_id id (pending_alerts w1)) in
  match error updated with
  | Some _ => (ErrorJson 500 "Failed to reject pending alert", w1)
  | None =>
    match data updated with
    | None => (ErrorJson 404 "Pending alert not found", w1)
    | Some a =>
      (Json {| reject_message := "Alert rejected"; rejected_alert := a |},
       emit (alert_rejected a) w1)
    end
  end.

End PendingAlerts.

(** ** The stream routes ([/api/streams]) and the polling loop *)

Module Streams.

Import Supabase.
Local Open Scope R_scope.

Record Started := {
  start_message : string;
  started_stream : Stream
}.

Record Stopped := {
  stop_message : string;
  stopped_stream : Stream
}.

(** The fields written by the start route. *)
Definition start_fields (now : Time) (s : Stream) : Stream :=
  {| stream_id := stream_id s;
     stream_url := stream_url s;
     stream_location := stream_location s;
     stream_latitude := stream_latitude s;
     stream_longitude := stream_longitude s;
     stream_status := active;
     is_processing := true;
     last_processed := Some now;
     accident_count := accident_count s;
     stream_description := stream_description s;
     stream_tags := stream_tags s |}.

(** The fields written by the stop route. *)
Definition stop_fields (s : Stream) : Stream :=
  {| stream_id := stream_id s;
     stream_url := stream_url s;
     stream_location := stream_location s;
     stream_latitude := stream_latitude s;
     stream_longitude := stream_longitude s;
     stream_status := inactive;
     is_processing := false;
     last_processed := last_processed s;
     accident_count := accident_count s;
     stream_description := stream_description s;
     stream_tags := stream_tags s |}.

(** The field written by a tick of the polling loop. *)
Definition processed_fields (now : Time) (s : Stream) : Stream :=
  {| stream_id := stream_id s;
     stream_url := stream_url s;
     stream_location := stream_location s;
     stream_latitude := stream_latitude s;
     stream_longitude := stream_longitude s;
     stream_status := stream_status s;
     is_processing := is_processing s;
     last_processed := Some now;
     accident_count := accident_count s;
     stream_description := stream_description s;
     stream_tags := stream_tags s |}.

(** [processStreamWithML(stream, ...)]: sets the 5-second timer and
    returns. *)
Definition processStreamWithML (stream : Stream) (w : World) : World :=
  setInterval stream w.

(** [router.post('/:id/start')]. *)
Definition start (id : uuid) (now : Time) (w : World)
  : Response Started * World :=
  let fetched := single (select_eq stream_id id (streams w)) in
  match error fetched with
  | Some _ => (ErrorJson 500 "Failed to start stream monitoring", w)
  | None =>
    match data fetched with
    | None => (ErrorJson 404 "Stream not found", w)
    | Some _ =>
      let w1 :=
        with_streams (update_eq stream_id (start_fields now) id (streams w)) w in
      let updated := single (select_eq stream_id id (streams w1)) in
      match error updated, data updated with
      | None, Some updatedStream =>
        let w2 := processStreamWithML updatedStream w1 in
        let w3 := emit (stream_started updatedStream) w2 in
        (Json {| start_message := "Stream monitoring started";
                 started_stream := updatedStream |},
         w3)
      | _, _ => (ErrorJson 500 "Failed to start stream monitoring", w1)
      end
    end
  end.

(** [router.post('/:id/stop')]. *)
Definition stop (id : uuid) (w : World) : Response Stopped * World :=
  let w1 := with_streams (update_eq stream_id stop_fields id (streams w)) w in
  let updated := single (select_eq stream_id id (streams w1)) in
  match error updated with
  | Some _ => (ErrorJson 500 "Failed to stop stream monitoring", w1)
  | None =>
    match data updated with
    | None => (ErrorJson 404 "Stream not found", w1)
    | Some stream =>
      (Json {| stop_message := "Stream monitoring stopped";
               stopped_stream := stream |},
       emit (stream_stopped stream) w1)
    end
  end.

Definition boxEntry (d : MLService.Detection) : BoxEntry :=
  {| box_x := MLService.x (MLService.boundingBox d);
     box_y := MLService.y (MLService.boundingBox d);
     box_width := MLService.width (MLService.boundingBox d);
     box_height := MLService.height (MLService.boundingBox d);
     box_class := MLService.det_class d;
     box_confidence := MLService.det_confidence d |}.

(** [detectionData] of [handleAccidentDetection]. *)
Definition detectionData (stream : Stream)
    (detectionResult : MLService.DetectionResult) : DetectionData :=
  let c := MLService.confidence detectionResult in
  {| dd_accidents := MLService.accidents detectionResult;
     dd_vehicles := Some (MLService.frameAnalysis detectionResult);
     dd_frameTimestamp := Some (MLService.timestamp detectionResult);
     dd_location := Some (stream_location stream);
     dd_latitude := stream_latitude stream;
     dd_longitude := stream_longitude stream;
     dd_severity :=
       Some (if Rlt_dec 0.85 c then "critical"%string
             else if Rlt_dec 0.75 c then "high"%string
             else "medium"%string);
     dd_boundingBoxes := map boxEntry (MLService.detections detectionResult);
     dd_accident_count := None |}.

(** [handleAccidentDetection]: the pending alert is inserted and the
    event is emitted with whatever the insert gave back. *)
Definition handleAccidentDetection (stream : Stream)
    (detectionResult : MLService.DetectionResult) (w : World) : World :=
  let row id :=
    {| pa_id := id;
       pa_stream_id := stream_id stream;
       pa_detection_data := detectionData stream detectionResult;
       pa_frame_timestamp := MLService.timestamp detectionResult;
       pa_confidence := MLService.confidence detectionResult;
       pa_status := pending;
       approved_by := None;
       approved_at := None;
       rejection_reason := None |} in
  let '(inserted, w1) := insert_pending_alert row w in
  emit (accident_detected_pending (data inserted) stream detectionResult) w1.

(** One run of the callback of the timer [i].  [result] is the value
    [mlService.processVideoStream(stream.url)] resolves to and [now] the
    clock when [last_processed] is written.  [processVideoStream] never
    rejects and the store reports failures in its result, so the
    [catch] branch is not modelled. *)
Definition tick (i : Interval) (result : MLService.DetectionResult)
    (now : Time) (w : World) : World :=
  let stream := interval_stream i in
  let current := single (select_eq stream_id (stream_id stream) (streams w)) in
  match error current, data current with
  | None, Some currentStream =>
    if is_processing currentStream then
      let w1 :=
        with_streams
          (update_eq stream_id (processed_fields now) (stream_id stream)
             (streams w))
          w in
      let w2 :=
        emit (detection_result (stream_id stream) (stream_id stream) result)
          w1 in
      if MLService.accidentDetected result
      then handleAccidentDetection stream result w2
      else w2
    else clearInterval (handle i) w
  | _, _ => clearInterval (handle i) w
  end.

(** The timers polling the stream [id]. *)
Definition polling (id : uuid) (w : World) : list Interval :=
  filter (fun i => Nat.eqb (stream_id (interval_stream i)) id) (intervals w).

End Streams.

(** * Reference definitions and scenarios *)

Unset Implicit Arguments.

(** Definitions that follow the wording of the specification, to be
    compared with the service. *)

Module Reference.

Import MLService.
Local Open Scope R_scope.


(** The unordered pairs of a list, the element of lower index first, in
    lexicographic order of the two indices. *)
Fixpoint pairs {A : Type} (l : list A) : list (A * A) :=
  match l with
  | [] => []
  | a :: rest => map (pair a) rest ++ pairs rest
  end.

(** The candidates of a list of pairs taken in order, each pair judged
    by [checkPair] with the draws left by the pairs before it. *)
Fixpoint collect (random : nat -> R) (now : Time)
    (ps : list (Detection * Detection)) (k : nat) : list Accident * nat :=
  match ps with
  | [] => ([], k)
  | (v1, v2) :: rest =>
      let '(pushed, k1) := checkPair random now v1 v2 k in
      let '(later, k2) := collect random now rest k1 in
      (match pushed with Some a => a :: later | None => later end, k2)
  end.

End Reference.

(** Concrete inputs used by the examples. *)

Module Scenario.

Import MLService Supabase.
Local Open Scope R_scope.

(** A random source that always returns 0 (the variance term is 0). *)
Definition fixed_draw : nat -> R := fun _ => 0.

Definition vehicleA : Detection :=
  {| det_class := "car"; det_confidence := 0.95;
     boundingBox := {| x := 100; y := 100; width := 100; height := 80 |};
     det_id := "vehicle_0_0" |}.

(** Its centre is 40 to the right of the centre of [vehicleA]. *)
Definition vehicleB : Detection :=
  {| det_class := "truck"; det_confidence := 0.93;
     boundingBox := {| x := 140; y := 100; width := 100; height := 80 |};
     det_id := "vehicle_1_0" |}.

Definition pedestrian : Detection :=
  {| det_class := "person"; det_confidence := 0.8;
     boundingBox := {| x := 300; y := 200; width := 30; height := 70 |};
     det_id := "person_0" |}.

(** A detection of confidence 1. *)
Definition certain : Detection :=
  {| det_class := "car"; det_confidence := 1;
     boundingBox := {| x := 0; y := 0; width := 100; height := 80 |};
     det_id := "vehicle_0_0" |}.

Definition cam1 : Stream :=
  {| stream_id := 1%nat; stream_url := "cam-1"; stream_location := "Main St";
     stream_latitude := None; stream_longitude := None;
     stream_status := active; is_processing := true;
     last_processed := Some 500%Z; accident_count := 3%Z;
     stream_description := None; stream_tags := [] |}.

(** The payload [handleAccidentDetection] stores: it has no
    [accident_count] field. *)
Definition payload : DetectionData :=
  {| dd_accidents := []; dd_vehicles := None;
     dd_frameTimestamp := Some 500%Z;
     dd_location := Some "Main St"%string;
     dd_latitude := None; dd_longitude := None;
     dd_severity := Some "high"%string;
     dd_boundingBoxes := [];
     dd_accident_count := None |}.

Definition awaiting : PendingAlert :=
  {| pa_id := 10%nat; pa_stream_id := 1%nat; pa_detection_data := payload;
     pa_frame_timestamp := 500%Z; pa_confidence := 0.84;
     pa_status := pending; approved_by := None; approved_at := None;
     rejection_reason := None |}.

(** One monitored stream with three accidents counted so far and one
    pending alert. *)
Definition world0 : World :=
  {| streams := [cam1]; pending_alerts := [awaiting]; alerts := [];
     next_uuid := 11%nat; emitted := [];
     intervals := [{| handle := 0%nat; interval_stream := cam1 |}];
     next_handle := 1%nat |}.

Definition operator1 : option string := Some "operator-1"%string.

(** A tick that found nothing. *)
Definition quiet : DetectionResult :=
  {| detections := []; accidentDetected := false; accidents := [];
     confidence := 0; timestamp := 0%Z;
     frameAnalysis := analyzeFrameContext [] |}.

(** The pending alert once "operator-1" has approved it at time 1000. *)
Definition approved1 : PendingAlert :=
  PendingAlerts.approve_fields operator1 1000%Z awaiting.

(** The world after that approval. *)
Definition world1 : World :=
  snd (PendingAlerts.approve 10%nat operator1 1000%Z 1001%Z world0).

(** The world after the stream, already monitored, is started again. *)
Definition world2 : World := snd (Streams.start 1%nat 2000%Z world0).

Definition timer0 : Interval := {| handle := 0%nat; interval_stream := cam1 |}.

Definition timer1 : Interval :=
  {| handle := 1%nat; interval_stream := Streams.start_fields 2000%Z cam1 |}.

End Scenario.

(** * Further parts of the service and of the routers *)

(** What the handlers below send: [res.status(code).json(body)] ([res.json]
    is status 200) or [res.status(code).json({ error })]. *)
Inductive Reply (A : Type) :=
| Sent (code : nat) (body : A)
| Refused (code : nat) (error : string).

Arguments Sent {A} code body.
Arguments Refused {A} code error.

(** ** Frames of a video stream ([MLService], continued) *)

Module VideoSource.

Import MLService.
Local Open Scope string_scope.

(** [s.includes(needle)] *)
Definition includes (needle s : string) : bool :=
  match String.index 0 needle s with
  | Some _ => true
  | None => false
  end.

(** An ASCII capital letter becomes the small one; other characters are
    left as they are. *)
Definition lower (c : Ascii.ascii) : Ascii.ascii :=
  let n := Ascii.nat_of_ascii c in
  if Nat.leb 65 n && Nat.leb n 90 then Ascii.ascii_of_nat (n + 32) else c.

Fixpoint lowercase (s : string) : string :=
  match s with
  | EmptyString => EmptyString
  | String c rest => String (lower c) (lowercase rest)
  end.

(** [s] ends with [suffix]. *)
Fixpoint endsWith (suffix s : string) : bool :=
  String.eqb suffix s ||
  match s with
  | EmptyString => false
  | String _ rest => endsWith suffix rest
  end.

(** The extensions of the pattern [/\.(mp4|webm|avi|mov)$/i]. *)
Definition videoExtensions : list string := [".mp4"; ".webm"; ".avi"; ".mov"].

(** [streamUrl.match(/\.(mp4|webm|avi|mov)$/i)] as a truth value. *)
Definition matchesVideoFile (streamUrl : string) : bool :=
  existsb (fun ext => endsWith ext (lowercase streamUrl)) videoExtensions.

Record FrameData := {
  source : string;
  frame_url : string;
  frameNumber : Z
}.

(** [Math.floor(Date.now() / 1000) % 3600]; [%] takes the sign of the
    dividend. *)
Definition frameNumberAt (now : Time) : Z := Z.rem (now / 1000) 3600.

Definition extractFrameFromStream (streamUrl : string) (now : Time)
  : FrameData :=
  if includes "youtube.com" streamUrl || includes "youtu.be" streamUrl then
    {| source := "youtube"; frame_url := streamUrl;
       frameNumber := frameNumberAt now |}
  else if includes "m3u8" streamUrl || includes "hls" streamUrl then
    {| source := "hls"; frame_url := streamUrl;
       frameNumber := frameNumberAt now |}
  else if matchesVideoFile streamUrl then
    {| source := "file"; frame_url := streamUrl;
       frameNumber := frameNumberAt now |}
  else
    {| source := "unknown"; frame_url := streamUrl;
       frameNumber := frameNumberAt now |}.

Definition getDefaultDetectionResult (now : Time) : DetectionResult :=
  {| detections := [];
     accidentDetected := false;
     accidents := [];
     confidence := 0%R;
     timestamp := now;
     frameAnalysis :=
       {| vehicleCount := 0; personCount := 0; objectCount := 0;
          averageConfidence := 0%R; crowdLevel := "light" |} |}.

(** What the promise of [processVideoStream] does: it resolves with
    [resolved_with] once the timer of [resolved_after] milliseconds has
    fired. *)
Record Resolution := {
  resolved_after : R;
  resolved_with : DetectionResult
}.

(** [processVideoStream]: one draw for the delay; when the timer fires
    the frame is extracted at [now_frame] and processed at [now];
    [processFrame] does not read the frame it is given. *)
Definition processVideoStream (random : nat -> R) (streamUrl : string)
    (now_frame now : Time) (k : nat) : Resolution * nat :=
  let processingDelay := (2000 + random k * 3000)%R in
  let frameData := extractFrameFromStream streamUrl now_frame in
  let '(result, k') := processFrame random now (S k) in
  ({| resolved_after := processingDelay; resolved_with := result |}, k').

End VideoSource.

(** ** The alerts router ([/api/alerts]) *)

Module Alerts.

Import Supabase.
Local Open Scope string_scope.

(** Messages emitted by the routers of this part. *)
Inductive Broadcast :=
| alert_status_updated (row : Alert)
| alert_sent (row : Alert)
| alert_acknowledged (alertId : uuid)
| pending_alert_created (row : PendingAlert)
| stream_deleted (id : uuid).

(** The response of a handler, the state it leaves and what it
    emitted. *)
Record Outcome (A : Type) := {
  reply : Reply A;
  world : World;
  broadcast : list Broadcast
}.

Arguments reply {A} _.
Arguments world {A} _.
Arguments broadcast {A} _.

Definition with_alerts (t : list Alert) (w : World) : World :=
  {| streams := streams w; pending_alerts := pending_alerts w; alerts := t;
     next_uuid := next_uuid w; emitted := emitted w;
     intervals := intervals w; next_handle := next_handle w |}.

(** The text of a status, as the column holds it. *)
Definition status_name (s : AlertStatus) : string :=
  match s with
  | alert_pending => "pending"
  | sent => "sent"
  | acknowledged => "acknowledged"
  | resolved_ => "resolved"
  end.

(** The status a text stands for; [None] for a text the CHECK constraint
    of the column rejects. *)
Definition status_of_name (s : string) : option AlertStatus :=
  if String.eqb s "pending" then Some alert_pending
  else if String.eqb s "sent" then Some sent
  else if String.eqb s "acknowledged" then Some acknowledged
  else if String.eqb s "resolved" then Some resolved_
  else None.

Definition set_status (st : AlertStatus) (a : Alert) : Alert :=
  {| alert_id := alert_id a; alert_stream_id := alert_stream_id a;
     alert_location := alert_location a; alert_latitude := alert_latitude a;
     alert_longitude := alert_longitude a; alert_severity := alert_severity a;
     alert_type := alert_type a; alert_status := st;
     alert_confidence := alert_confidence a;
     alert_detection_data := alert_detection_data a;
     alert_description := alert_description a;
     sent_at := sent_at a; acknowledged_at := acknowledged_at a;
     resolved_at := resolved_at a |}.

(** The fields written by the send route. *)
Definition send_fields (now : Time) (a : Alert) : Alert :=
  {| alert_id := alert_id a; alert_stream_id := alert_stream_id a;
     alert_location := alert_location a; alert_latitude := alert_latitude a;
     alert_longitude := alert_longitude a; alert_severity := alert_severity a;
     alert_type := alert_type a; alert_status := sent;
     alert_confidence := alert_confidence a;
     alert_detection_data := alert_detection_data a;
     alert_description := alert_description a;
     sent_at := Some now; acknowledged_at := acknowledged_at a;
     resolved_at := resolved_at a |}.

(** The fields written by the acknowledge route. *)
Definition acknowledge_fields (now : Time) (a : Alert) : Alert :=
  {| alert_id := alert_id a; alert_stream_id := alert_stream_id a;
     alert_location := alert_location a; alert_latitude := alert_latitude a;
     alert_longitude := alert_longitude a; alert_severity := alert_severity a;
     alert_type := alert_type a; alert_status := acknowledged;
     alert_confidence := alert_confidence a;
     alert_detection_data := alert_detection_data a;
     alert_description := alert_description a;
     sent_at := sent_at a; acknowledged_at := Some now;
     resolved_at := resolved_at a |}.

(** [.update(fields).eq('id', id).select().single()] on [alerts], then
    the handling the three updating routes share: a failure is answered
    500 with [failure], a success emits [event] and sends [body]. *)
Definition update_alert {A : Type} (fields : Alert -> Alert) (id : uuid)
    (failure : string) (event : Alert -> Broadcast) (body : Alert -> A)
    (w : World) : Outcome A :=
  let w1 := with_alerts (update_eq alert_id fields id (alerts w)) w in
  let updated := single (select_eq alert_id id (alerts w1)) in
  match error updated with
  | Some _ => {| reply := Refused 500 failure; world := w1; broadcast := [] |}
  | None =>
    match data updated with
    | None => {| reply := Refused 404 "Alert not found"; world := w1;
                 broadcast := [] |}
    | Some row => {| reply := Sent 200 (body row); world := w1;
                     broadcast := [event row] |}
    end
  end.

(** [router.get('/:id')]. *)
Definition get (id : uuid) (w : World) : Reply Alert :=
  let fetched := single (select_eq alert_id id (alerts w)) in
  match error fetched with
  | Some _ => Refused 500 "Failed to fetch alert"
  | None =>
    match data fetched with
    | None => Refused 404 "Alert not found"
    | Some row => Sent 200 row
    end
  end.

(** [router.put('/:id/status')].  A text that is not one of the four
    statuses breaks the CHECK constraint when a row is updated; with no
    row to update [single] fails: the answer is 500 in both cases and
    nothing is written. *)
Definition put_status (id : uuid) (status : option string) (w : World)
  : Outcome Alert :=
  match status with
  | None => {| reply := Refused 400 "Status is required"; world := w;
               broadcast := [] |}
  | Some s =>
    if String.eqb s "" then
      {| reply := Refused 400 "Status is required"; world := w;
         broadcast := [] |}
    else
      match status_of_name s with
      | None => {| reply := Refused 500 "Failed to update alert status";
                   world := w; broadcast := [] |}
      | Some st =>
        update_alert (set_status st) id "Failed to update alert status"
          alert_status_updated (fun a => a) w
      end
  end.

Record Message := {
  message : string;
  message_alert : Alert
}.

(** [router.post('/:id/send')]. *)
Definition send (id : uuid) (now : Time) (w : World) : Outcome Message :=
  update_alert (send_fields now) id "Failed to send alert" alert_sent
    (fun a => {| message := "Alert sent successfully"; message_alert := a |})
    w.

(** [router.post('/:id/acknowledge')]. *)
Definition acknowledge (id : uuid) (now : Time) (w : World)
  : Outcome Message :=
  update_alert (acknowledge_fields now) id "Failed to acknowledge alert"
    (fun _ => alert_acknowledged id)
    (fun a => {| message := "Alert acknowledged"; message_alert := a |})
    w.

(** A JavaScript object with numeric values: its properties in the
    order they were created. *)
Definition Counters := list (string * nat).

(** [o[k]] *)
Fixpoint lookup (k : string) (o : Counters) : option nat :=
  match o with
  | [] => None
  | (k', v) :: rest => if String.eqb k' k then Some v else lookup k rest
  end.

(** [o[k] = v] *)
Fixpoint assign (k : string) (v : nat) (o : Counters) : Counters :=
  match o with
  | [] => [(k, v)]
  | (k', v') :: rest =>
      if String.eqb k' k then (k', v) :: rest else (k', v') :: assign k v rest
  end.

(** [o[k] = (o[k] || 0) + 1] *)
Definition increment (k : string) (o : Counters) : Counters :=
  assign k (S (match lookup k o with Some n => n | None => 0 end)) o.

(** The callback of [alerts.forEach] in the summary route. *)
Definition count_alert (summary : Counters) (a : Alert) : Counters :=
  let s1 := increment (status_name (alert_status a)) summary in
  if String.eqb (alert_severity a) "" then s1
  else increment (alert_severity a) s1.

(** [router.get('/stats/summary')]: the body sent. *)
Definition stats_summary (w : World) : Counters :=
  fold_left count_alert (alerts w)
    [("total", length (alerts w)); ("pending", 0); ("sent", 0);
     ("acknowledged", 0); ("resolved", 0); ("critical", 0); ("high", 0);
     ("medium", 0); ("low", 0)].

End Alerts.

(** ** The pending-alert routes, continued *)

Module PendingAlertsIntake.

Import Supabase Alerts.
Local Open Scope string_scope.

(** The body of [POST /api/pending-alerts]; a field is [None] when the
    body does not have it. *)
Record CreateBody := {
  body_stream_id : option uuid;
  body_detection_data : option DetectionData;
  body_frame_timestamp : option Time;
  body_confidence : option R
}.

(** [confidence || 0.75]: a missing confidence and 0 are falsy. *)
Definition or_confidence (c : option R) : R :=
  match c with
  | Some v => if Req_dec_T v 0 then 0.75%R else v
  | None => 0.75%R
  end.

(** [frame_timestamp || new Date().toISOString()] *)
Definition or_time (t : option Time) (now : Time) : Time :=
  match t with
  | Some v => v
  | None => now
  end.

(** [router.post('/')]. *)
Definition create (body : CreateBody) (now : Time) (w : World)
  : Outcome PendingAlert :=
  match body_stream_id body, body_detection_data body with
  | Some stream_id, Some detection_data =>
    let row id :=
      {| pa_id := id;
         pa_stream_id := stream_id;
         pa_detection_data := detection_data;
         pa_frame_timestamp := or_time (body_frame_timestamp body) now;
         pa_confidence := or_confidence (body_confidence body);
         pa_status := pending;
         approved_by := None;
         approved_at := None;
         rejection_reason := None |} in
    let '(inserted, w1) := insert_pending_alert row w in
    match error inserted, data inserted with
    | None, Some created =>
      {| reply := Sent 201 created; world := w1;
         broadcast := [pending_alert_created created] |}
    | _, _ =>
      {| reply := Refused 500 "Failed to create pending alert"; world := w1;
         broadcast := [] |}
    end
  | _, _ =>
    {| reply := Refused 400 "Stream ID and detection data are required";
       world := w; broadcast := [] |}
  end.

(** [router.get('/:id')]. *)
Definition get (id : uuid) (w : World) : Reply PendingAlert :=
  let fetched := single (select_eq pa_id id (pending_alerts w)) in
  match error fetched with
  | Some _ => Refused 500 "Failed to fetch pending alert"
  | None =>
    match data fetched with
    | None => Refused 404 "Pending alert not found"
    | Some row => Sent 200 row
    end
  end.

End PendingAlertsIntake.

(** ** The stream routes, continued *)

Module StreamsRemoval.

Import Supabase Alerts.
Local Open Scope string_scope.



(** [router.get('/:id')]. *)
Definition get (id : uuid) (w : World) : Reply Stream :=
  let fetched := single (select_eq stream_id id (streams w)) in
  match error fetched with
  | Some _ => Refused 500 "Failed to fetch stream"
  | None =>
    match data fetched with
    | None => Refused 404 "Stream not found"
    | Some stream => Sent 200 stream
    end
  end.

End StreamsRemoval.

(** ** What the database guarantees *)

Module Integrity.

Import Supabase.

(** Primary keys: no key twice in a table, and the keys the database
    has handed out to pending alerts and alerts are below the next one. *)
Definition keys_ok (w : World) : Prop :=
  NoDup (map stream_id (streams w)) /\
  NoDup (map pa_id (pending_alerts w)) /\
  NoDup (map alert_id (alerts w)) /\
  Forall (fun p => pa_id p < next_uuid w) (pending_alerts w) /\
  Forall (fun a => alert_id a < next_uuid w) (alerts w).

(** Foreign keys: every pending alert and every alert references a
    stream of the table. *)
Definition references_ok (w : World) : Prop :=
  Forall (fun p => stream_exists (pa_stream_id p) w = true) (pending_alerts w) /\
  Forall (fun a => stream_exists (alert_stream_id a) w = true) (alerts w).

(** CHECK constraint on the severity of alerts. *)
Definition checks_ok (w : World) : Prop :=
  Forall (fun a => valid_severity (alert_severity a) = true) (alerts w).

(** Timers: no handle twice, and the handles in use are below the next
    one. *)
Definition timers_ok (w : World) : Prop :=
  NoDup (map handle (intervals w)) /\
  Forall (fun i => handle i < next_handle w) (intervals w).

Definition consistent (w : World) : Prop :=
  keys_ok w /\ references_ok w /\ checks_ok w /\ timers_ok w.

End Integrity.

(** ** Further reference definitions and scenarios *)

Module Geometry.

Import MLService.
Local Open Scope R_scope.

(** The centre of a bounding box. *)
Definition centerX (b : BoundingBox) : R := x b + width b / 2.
Definition centerY (b : BoundingBox) : R := y b + height b / 2.

(** A candidate with its two vehicles exchanged. *)
Definition swapVehicles (a : Accident) : Accident :=
  {| vehicle1 := vehicle2 a;
     vehicle2 := vehicle1 a;
     acc_confidence := acc_confidence a;
     distance := distance a;
     location := location a;
     severity := severity a;
     acc_timestamp := acc_timestamp a |}.

(** The box of an object: inside the frame ranges of the generator. *)
Definition box_in_range (d : Detection) : Prop :=
  0 <= x (boundingBox d) < 800 /\ 0 <= y (boundingBox d) < 400 /\
  (isVehicle d = true ->
   80 <= width (boundingBox d) <= 200 /\
   60 <= height (boundingBox d) <= 160) /\
  (isPerson d = true ->
   width (boundingBox d) = 30 /\ height (boundingBox d) = 70).

End Geometry.

Module Text.

(** [needle] occurs in [s] at some position. *)
Definition occurs (needle s : string) : Prop :=
  exists m, substring m (String.length needle) s = needle.

End Text.

(** Names for the rows the routes build. *)

Module Rows.

Import Supabase.

(** The pending alert [handleAccidentDetection] inserts. *)
Definition detected_row (stream : Stream)
    (detectionResult : MLService.DetectionResult) (id : uuid) : PendingAlert :=
  {| pa_id := id;
     pa_stream_id := stream_id stream;
     pa_detection_data := Streams.detectionData stream detectionResult;
     pa_frame_timestamp := MLService.timestamp detectionResult;
     pa_confidence := MLService.confidence detectionResult;
     pa_status := pending;
     approved_by := None;
     approved_at := None;
     rejection_reason := None |}.

(** The pending alert [POST /api/pending-alerts] inserts. *)
Definition created_row (body : PendingAlertsIntake.CreateBody)
    (stream_id : uuid) (detection_data : DetectionData) (now : Time)
    (id : uuid) : PendingAlert :=
  {| pa_id := id;
     pa_stream_id := stream_id;
     pa_detection_data := detection_data;
     pa_frame_timestamp :=
       PendingAlertsIntake.or_time
         (PendingAlertsIntake.body_frame_timestamp body) now;
     pa_confidence :=
       PendingAlertsIntake.or_confidence
         (PendingAlertsIntake.body_confidence body);
     pa_status := pending;
     approved_by := None;
     approved_at := None;
     rejection_reason := None |}.

(** The state a tick leaves before it looks at the result: the time of
    processing written and the result emitted to the room of the
    stream. *)
Definition processed (i : Interval) (result : MLService.DetectionResult)
    (now : Time) (w : World) : World :=
  emit (detection_result (stream_id (interval_stream i))
          (stream_id (interval_stream i)) result)
    (with_streams
       (update_eq stream_id (Streams.processed_fields now)
          (stream_id (interval_stream i)) (streams w))
       w).

End Rows.

(** Reading the summary of the alerts. *)

Module Tally.

Import Supabase Alerts.

(** [o[k] || 0] *)
Definition value (k : string) (o : Counters) : nat :=
  match lookup k o with
  | Some n => n
  | None => 0
  end.

(** The number of alerts whose status is written [k]. *)
Definition with_status (k : string) (l : list Alert) : nat :=
  length (filter (fun a => String.eqb (status_name (alert_status a)) k) l).

(** The number of alerts whose severity is [k]. *)
Definition with_severity (k : string) (l : list Alert) : nat :=
  length (filter (fun a => String.eqb (alert_severity a) k) l).

End Tally.

Module Scenario2.

Import MLService Supabase Scenario.
Local Open Scope R_scope.

(** A payload whose severity is not one the [alerts] table accepts. *)
Definition odd_payload : DetectionData :=
  {| dd_accidents := []; dd_vehicles := None;
     dd_frameTimestamp := None;
     dd_location := None;
     dd_latitude := None; dd_longitude := None;
     dd_severity := Some "severe"%string;
     dd_boundingBoxes := [];
     dd_accident_count := None |}.

(** A request to create a pending alert for stream 1 with that payload
    and confidence 0. *)
Definition odd_body : PendingAlertsIntake.CreateBody :=
  {| PendingAlertsIntake.body_stream_id := Some 1%nat;
     PendingAlertsIntake.body_detection_data := Some odd_payload;
     PendingAlertsIntake.body_frame_timestamp := None;
     PendingAlertsIntake.body_confidence := Some 0 |}.

(** The world after that request at time 4000. *)
Definition world3 : World :=
  Alerts.world (PendingAlertsIntake.create odd_body 4000%Z world0).

(** A tick that found one accident. *)
Definition crash : Accident :=
  {| vehicle1 := "car"; vehicle2 := "truck"; acc_confidence := 0.84;
     distance := 40; location := {| px := 120; py := 100 |};
     severity := "high"; acc_timestamp := 2500%Z |}.

Definition alarming : DetectionResult :=
  {| detections := [vehicleA; vehicleB]; accidentDetected := true;
     accidents := [crash]; confidence := 0.84; timestamp := 2500%Z;
     frameAnalysis := analyzeFrameContext [vehicleA; vehicleB] |}.

(** The world after the stream is stopped. *)
Definition world4 : World := snd (Streams.stop 1%nat world0).

End Scenario2.

(** ** The detection generator on doubles *)

(** [performObjectDetection] once more, its numbers being IEEE-754
    doubles (binary64, every operation rounded to nearest, ties to even)
    as in the JavaScript engine, in place of real numbers.  The draws
    are doubles in [0, 1). *)

Module Binary64.

Import Floats.
#[local] Set Warnings "-inexact-float".
Local Open Scope float_scope.

Record BoundingBox := {
  x : float;
  y : float;
  width : float;
  height : float
}.

Record Detection := {
  det_class : string;
  det_confidence : float;
  boundingBox : BoundingBox;
  det_id : string
}.

(** [Math.floor] of a finite double, as an integer: the signed mantissa
    shifted by the exponent, a shift to the right rounding down.  The
    products floored below are finite. *)
Definition floor (v : float) : Z :=
  match Prim2SF v with
  | S754_finite false m e => Z.shiftl (Zpos m) e
  | S754_finite true m e => Z.shiftl (Zneg m) e
  | _ => 0%Z
  end.

(** The largest double below 1, 1 - 2^-53. *)
Definition largestDraw : float := 0x1.fffffffffffffp-1.

Section Service.

Variable random : nat -> float.

Definition newVehicle (now : Time) (i k : nat) : Detection :=
  let vehicleClass :=
    nth (Z.to_nat (floor (random k * 5)))
        MLService.vehicleClasses "undefined"%string in
  {| det_class := vehicleClass;
     det_confidence := 0.85 + random (k + 1)%nat * 0.15;
     boundingBox :=
       {| x := random (k + 2)%nat * 800;
          y := random (k + 3)%nat * 400;
          width := 80 + random (k + 4)%nat * 120;
          height := 60 + random (k + 5)%nat * 100 |};
     det_id := String.append "vehicle_"
                 (String.append (JS.show_nat i)
                    (String.append "_" (JS.show_time now))) |}.

Fixpoint vehicleLoop (now : Time) (n i k : nat) : list Detection * nat :=
  match n with
  | O => ([], k)
  | S n' =>
      let '(later, k') := vehicleLoop now n' (S i) (k + 6)%nat in
      (newVehicle now i k :: later, k')
  end.

Definition newPerson (now : Time) (k : nat) : Detection :=
  {| det_class := "person";
     det_confidence := 0.75 + random k * 0.25;
     boundingBox :=
       {| x := random (k + 1)%nat * 800;
          y := random (k + 2)%nat * 400;
          width := 30;
          height := 70 |};
     det_id := String.append "person_" (JS.show_time now) |}.

Definition performObjectDetection (now : Time) (k : nat)
  : list Detection * nat :=
  let vehicleCount := Z.to_nat (floor (random k * 5) + 2) in
  let '(vehicles, k1) := vehicleLoop now vehicleCount 0 (k + 1)%nat in
  if 0.7 <? random k1
  then (vehicles ++ [newPerson now (k1 + 1)%nat], (k1 + 4)%nat)
  else (vehicles, (k1 + 1)%nat).

(** [processingDelay] of [processVideoStream]. *)
Definition processingDelay (k : nat) : float := 2000 + random k * 3000.

End Service.

End Binary64.

(** * Properties of the collision-inference service *)

Module MLServiceFacts.

Import MLService Reference Geometry.
Local Open Scope R_scope.

(** C6. Severity is decided by the thresholds 0.85, 0.75 and 0.65:
    critical exactly above 0.85, high exactly in (0.75, 0.85], medium
    exactly in (0.65, 0.75], low exactly at or below 0.65; the four
    tiers are distinct, and 0.85 itself is high. *)
Theorem calculateSeverity_partition (c d : R) :
  (calculateSeverity c d = "critical"%string <-> 0.85 < c) /\
  (calculateSeverity c d = "high"%string <-> 0.75 < c <= 0.85) /\
  (calculateSeverity c d = "medium"%string <-> 0.65 < c <= 0.75) /\
  (calculateSeverity c d = "low"%string <-> c <= 0.65) /\
  calculateSeverity 0.85 d = "high"%string.
Proof.
  assert (H85 : calculateSeverity 0.85 d = "high"%string)
    by (unfold calculateSeverity;
        destruct (Rlt_dec 0.85 0.85); [lra|];
        destruct (Rlt_dec 0.75 0.85); [reflexivity | lra]).
  repeat split; trivial; clear H85; intros;
    unfold calculateSeverity in *;
    destruct (Rlt_dec 0.85 c); try discriminate; try reflexivity; try lra;
    destruct (Rlt_dec 0.75 c); try discriminate; try reflexivity; try lra;
    destruct (Rlt_dec 0.65 c); try discriminate; try reflexivity; lra.
Qed.

Lemma fold_left_sum {A : Type} (f : A -> R) (l : list A) (s : R) :
  fold_left (fun sum a => sum + f a) l s = s + fold_right Rplus 0 (map f l).
Proof.
  revert s. induction l as [|a l IH]; intros s; simpl.
  - lra.
  - rewrite IH. lra.
Qed.

Lemma sumConfidence_sum (accidents : list Accident) :
  sumConfidence accidents = fold_right Rplus 0 (map acc_confidence accidents).
Proof. unfold sumConfidence. rewrite fold_left_sum. lra. Qed.


(** [pairs] lists exactly the pairs of elements at indices i < j. *)
Lemma pairs_indices {A : Type} (l : list A) (a b : A) :
  In (a, b) (pairs l) <->
  exists i j, (i < j)%nat /\ nth_error l i = Some a /\ nth_error l j = Some b.
Proof.
  induction l as [|x l IH]; simpl.
  - split; [tauto|]. intros (i & j & _ & Hi & _). destruct i; discriminate.
  - rewrite in_app_iff, in_map_iff, IH. split.
    + intros [(y & E & Hy)|(i & j & Hij & Hi & Hj)].
      * injection E as <- <-. apply In_nth_error in Hy. destruct Hy as [j Hj].
        exists 0%nat, (S j). repeat split; [lia | exact Hj].
      * exists (S i), (S j). repeat split; [lia | exact Hi | exact Hj].
    + intros (i & j & Hij & Hi & Hj). destruct j as [|j]; [lia|].
      destruct i as [|i]; simpl in Hi, Hj.
      * injection Hi as ->. left. exists b. split; [reflexivity|].
        eapply nth_error_In. exact Hj.
      * right. exists i, j. repeat split; [lia | exact Hi | exact Hj].
Qed.

Section Draws.

Variable random : nat -> R.
Hypothesis random_range : forall n, 0 <= random n < 1.

(** C7. For detection confidences in [0, 1] and a distance that is not
    negative, the collision confidence is
    min(1, c1 * c2 * max(0, 1 - d/200) * 1.2 + U) with U in [0, 0.3),
    and it lies in [0, 1]. *)
Theorem calculateCollisionConfidence_range
    (v1 v2 : Detection) (d : R) (k : nat) :
  0 <= det_confidence v1 <= 1 ->
  0 <= det_confidence v2 <= 1 ->
  0 <= d ->
  0 <= random k * 0.3 < 0.3 /\
  calculateCollisionConfidence random v1 v2 d k =
    Rmin 1 (det_confidence v1 * det_confidence v2 * Rmax 0 (1 - d / 200) * 1.2
            + random k * 0.3) /\
  0 <= calculateCollisionConfidence random v1 v2 d k <= 1.
Proof.
  intros H1 H2 Hd.
  pose proof (random_range k) as Hr.
  split; [lra|]. split; [reflexivity|].
  unfold calculateCollisionConfidence.
  assert (0 <= Rmax 0 (1 - d / 200)) by apply Rmax_l.
  assert (0 <= det_confidence v1 * det_confidence v2) by nra.
  assert (0 <= det_confidence v1 * det_confidence v2 * Rmax 0 (1 - d / 200))
    by nra.
  split.
  - apply Rmin_glb; lra.
  - apply Rmin_l.
Qed.

Lemma innerLoop_collect (now : Time) (v1 : Detection)
    (rest : list Detection) (k : nat) :
  innerLoop random now v1 rest k = collect random now (map (pair v1) rest) k.
Proof.
  revert k. induction rest as [|v2 rest IH]; intros k; simpl.
  - reflexivity.
  - destruct (checkPair random now v1 v2 k) as [pushed k1].
    rewrite IH. reflexivity.
Qed.

Lemma collect_app (now : Time) (ps qs : list (Detection * Detection))
    (k : nat) :
  collect random now (ps ++ qs) k =
    let '(first, k1) := collect random now ps k in
    let '(later, k2) := collect random now qs k1 in
    (first ++ later, k2).
Proof.
  revert k. induction ps as [|[v1 v2] ps IH]; intros k; simpl.
  - destruct (collect random now qs k). reflexivity.
  - destruct (checkPair random now v1 v2 k) as [pushed k1].
    rewrite IH.
    destruct (collect random now ps k1) as [first k2].
    destruct (collect random now qs k2) as [later k3].
    destruct pushed; reflexivity.
Qed.

Lemma outerLoop_collect (now : Time) (vehicles : list Detection) (k : nat) :
  outerLoop random now vehicles k = collect random now (pairs vehicles) k.
Proof.
  revert k. induction vehicles as [|v1 rest IH]; intros k; simpl.
  - reflexivity.
  - rewrite collect_app, innerLoop_collect.
    destruct (collect random now (map (pair v1) rest) k) as [first k1].
    rewrite IH. reflexivity.
Qed.

Lemma pairs_short {A : Type} (l : list A) :
  (length l < 2)%nat -> pairs l = [].
Proof.
  destruct l as [|a [|b l]]; simpl; intros H; try reflexivity; lia.
Qed.

Lemma detectAccidents_collect (now : Time) (detections : list Detection)
    (k : nat) :
  detectAccidents random now detections k =
    collect random now (pairs (filter isVehicle detections)) k.
Proof.
  unfold detectAccidents, minVehicles.
  destruct (Nat.ltb_spec (length (filter isVehicle detections)) 2) as [H|H].
  - rewrite (pairs_short _ H). reflexivity.
  - apply outerLoop_collect.
Qed.

(** What [checkPair] decides for one pair. *)
Lemma checkPair_decides (now : Time) (v1 v2 : Detection) (k : nat) :
  let d := calculateDistance (boundingBox v1) (boundingBox v2) in
  let c := calculateCollisionConfidence random v1 v2 d k in
  (d < 100 /\ 0.7 < c /\
   exists a, checkPair random now v1 v2 k = (Some a, S k) /\
             vehicle1 a = det_class v1 /\ vehicle2 a = det_class v2 /\
             acc_confidence a = c /\ distance a = d /\
             severity a = calculateSeverity c d) \/
  (d < 100 /\ c <= 0.7 /\ checkPair random now v1 v2 k = (None, S k)) \/
  (100 <= d /\ checkPair random now v1 v2 k = (None, k)).
Proof.
  intros d c. unfold checkPair, maxDistanceBetweenVehicles,
    collisionConfidenceThreshold. fold d. fold c.
  destruct (Rlt_dec d 100) as [Hd|Hd].
  - destruct (Rlt_dec 0.7 c) as [Hc|Hc].
    + left. repeat split; trivial. eexists. repeat split.
    + right. left. repeat split; trivial. lra.
  - right. right. split; [lra | reflexivity].
Qed.

Lemma collect_Forall (now : Time) (ps : list (Detection * Detection))
    (k : nat) :
  Forall (fun a => distance a < 100 /\ 0.7 < acc_confidence a <= 1)
         (fst (collect random now ps k)).
Proof.
  revert k. induction ps as [|[v1 v2] ps IH]; intros k; simpl.
  - constructor.
  - destruct (checkPair_decides now v1 v2 k)
      as [(Hd & Hc & a & E & _ & _ & Ea & Ed & _)|[(_ & _ & E)|(_ & E)]];
      rewrite E; specialize (IH (snd (checkPair random now v1 v2 k)));
      rewrite E in IH; simpl in IH;
      match goal with
      | |- context [collect random now ps ?n] =>
          destruct (collect random now ps n) as [later k2]
      end; simpl in *; trivial.
    constructor; trivial. rewrite Ea, Ed. repeat split; trivial.
    apply Rmin_l.
Qed.

(** C4. A pair of vehicles yields a candidate exactly when the
    Euclidean distance [d] of the centres of their boxes,
    sqrt((cx1 - cx2)^2 + (cy1 - cy2)^2) with cx = x + width/2 and
    cy = y + height/2, is below 100 and
    min(1, c1 * c2 * max(0, 1 - d/200) * 1.2 + U) exceeds 0.7, U in
    [0, 0.3) being the draw made for the pair; the candidate records
    that confidence and that distance; a pair at distance 100 or more
    yields none and makes no draw.  The result of [detectAccidents] is
    made of the candidates of the pairs i < j of the vehicle-class
    objects, in order, so each of them has a distance below 100 and a
    confidence above 0.7. *)
Theorem detectAccidents_pairs (now : Time) :
  (forall (v1 v2 : Detection) (k : nat),
     let d := sqrt ((centerX (boundingBox v1) - centerX (boundingBox v2)) ^ 2
                    + (centerY (boundingBox v1) - centerY (boundingBox v2)) ^ 2)
     in
     let U := random k * 0.3 in
     let c := Rmin 1 (det_confidence v1 * det_confidence v2
                      * Rmax 0 (1 - d / 200) * 1.2 + U) in
     0 <= U < 0.3 /\
     ((exists a, fst (checkPair random now v1 v2 k) = Some a)
      <-> d < 100 /\ c > 0.7) /\
     (forall a, fst (checkPair random now v1 v2 k) = Some a ->
                acc_confidence a = c /\ distance a = d /\
                vehicle1 a = det_class v1 /\ vehicle2 a = det_class v2) /\
     (d >= 100 -> checkPair random now v1 v2 k = (None, k))) /\
  (forall (detections : list Detection) (k : nat),
     detectAccidents random now detections k =
       collect random now (pairs (filter isVehicle detections)) k /\
     Forall (fun a => distance a < 100 /\ 0.7 < acc_confidence a <= 1)
            (fst (detectAccidents random now detections k))) /\
  (forall (vehicles : list Detection) (v1 v2 : Detection),
     In (v1, v2) (pairs vehicles) <->
     exists i j, (i < j)%nat /\ nth_error vehicles i = Some v1 /\
                 nth_error vehicles j = Some v2).
Proof.
  split; [|split; [|intros; apply pairs_indices]].
  - intros v1 v2 k d U c.
    pose proof (random_range k) as Hr.
    split; [unfold U; lra|].
    pose proof (checkPair_decides now v1 v2 k) as H. cbv zeta in H.
    change (calculateDistance (boundingBox v1) (boundingBox v2)) with d in H.
    destruct H
      as [(Hd & Hc & a & E & E1 & E2 & Ea & Ed & _)|[(Hd & Hc & E)|(Hd & E)]];
      rewrite E; simpl.
    + split; [split|split].
      * intros _. split; [exact Hd | exact Hc].
      * intros _. exists a. reflexivity.
      * intros b Hb. injection Hb as <-.
        split; [exact Ea|]. split; [exact Ed|]. split; assumption.
      * intros Hge. lra.
    + split; [split|split].
      * intros [b Hb]. discriminate.
      * intros [_ H]. exfalso. apply (Rlt_irrefl 0.7).
        apply Rlt_le_trans with (2 := Hc). exact H.
      * intros b Hb. discriminate.
      * intros Hge. lra.
    + split; [split|split].
      * intros [b Hb]. discriminate.
      * intros [H _]. lra.
      * intros b Hb. discriminate.
      * reflexivity.
  - intros detections k. split.
    + apply detectAccidents_collect.
    + rewrite detectAccidents_collect. apply collect_Forall.
Qed.

(** C5. With fewer than two vehicle-class objects [detectAccidents]
    returns no candidate and makes no draw, and the result of the
    analysis has an empty candidate list, no accident and confidence 0. *)
Theorem analyzeDetections_few_vehicles
    (now : Time) (detections : list Detection) (k : nat) :
  (length (filter isVehicle detections) < 2)%nat ->
  detectAccidents random now detections k = ([], k) /\
  accidents (fst (analyzeDetections random now detections k)) = [] /\
  accidentDetected (fst (analyzeDetections random now detections k)) = false /\
  confidence (fst (analyzeDetections random now detections k)) = 0.
Proof.
  intros H.
  assert (E : detectAccidents random now detections k = ([], k)).
  { unfold detectAccidents, minVehicles.
    apply Nat.ltb_lt in H. rewrite H. reflexivity. }
  unfold analyzeDetections. rewrite E. simpl. repeat split.
Qed.

Lemma floor_range (v : R) (m : Z) :
  0 <= v < IZR m -> (0 <= JS.floor v < m)%Z.
Proof.
  intros [H0 Hm]. unfold JS.floor. split.
  - apply Zfloor_lub. exact H0.
  - apply lt_IZR. destruct (Zfloor_bound v) as [Hl _]. lra.
Qed.

Lemma vehicleClass_not_person (c : string) :
  In c vehicleClasses -> String.eqb c "person" = false.
Proof.
  unfold vehicleClasses. simpl.
  intros [<-|[<-|[<-|[<-|[<-|[]]]]]]; reflexivity.
Qed.

Lemma vehicleClass_isVehicle (d : Detection) :
  In (det_class d) vehicleClasses -> isVehicle d = true.
Proof.
  intros H. unfold isVehicle. apply existsb_exists.
  exists (det_class d). split; [exact H | apply String.eqb_refl].
Qed.

(** What iteration [i] of the vehicle loop pushes. *)
Lemma newVehicle_vehicle (now : Time) (i k : nat) :
  In (det_class (newVehicle random now i k)) vehicleClasses /\
  0.85 <= det_confidence (newVehicle random now i k) <= 1.
Proof.
  split.
  - unfold newVehicle. cbn [det_class].
    apply nth_In.
    assert (0 <= random k * INR (length vehicleClasses) < IZR 5) as Hr.
    { pose proof (random_range k). simpl. lra. }
    apply floor_range in Hr. change (length vehicleClasses) with 5%nat at 2. lia.
  - unfold newVehicle. cbn [det_confidence].
    pose proof (random_range (k + 1)). lra.
Qed.

Lemma vehicleLoop_vehicles (now : Time) (n i k : nat) :
  length (fst (vehicleLoop random now n i k)) = n /\
  snd (vehicleLoop random now n i k) = (k + 6 * n)%nat /\
  Forall (fun d => In (det_class d) vehicleClasses /\
                   0.85 <= det_confidence d <= 1)
         (fst (vehicleLoop random now n i k)).
Proof.
  revert i k. induction n as [|n IH]; intros i k; simpl.
  - repeat split; [lia | constructor].
  - destruct (IH (S i) (k + 6)%nat) as (Hl & Hk & Hall).
    destruct (vehicleLoop random now n (S i) (k + 6)) as [later k']. simpl in *.
    repeat split; [lia | lia | ].
    constructor; [apply newVehicle_vehicle | exact Hall].
Qed.

Lemma filter_keep {A : Type} (f : A -> bool) (l : list A) :
  Forall (fun a => f a = true) l -> filter f l = l.
Proof.
  induction 1 as [|a l Ha _ IH]; simpl; [reflexivity|].
  rewrite Ha, IH. reflexivity.
Qed.

Lemma filter_drop {A : Type} (f : A -> bool) (l : list A) :
  Forall (fun a => f a = false) l -> filter f l = [].
Proof.
  induction 1 as [|a l Ha _ IH]; simpl; [reflexivity|].
  rewrite Ha, IH. reflexivity.
Qed.

(** C10, amended. [performObjectDetection] returns n vehicle-class
    objects, n = floor(5 * first draw) + 2 between 2 and 6, each with a
    class of the vehicle list and a confidence in [0.85, 1], followed by
    exactly one person with confidence in [0.75, 1] when the draw made
    after the vehicles exceeds 0.7, and by nothing otherwise.  The
    bound 1 is reached on doubles (module [Binary64]). *)
Theorem performObjectDetection_contents (now : Time) (k : nat) :
  let n := Z.to_nat (JS.floor (random k * 5) + 2) in
  let ds := fst (performObjectDetection random now k) in
  let vehicles := filter isVehicle ds in
  let people := filter isPerson ds in
  (2 <= n <= 6)%nat /\
  length vehicles = n /\
  Forall (fun d => In (det_class d) vehicleClasses /\
                   0.85 <= det_confidence d <= 1) vehicles /\
  Forall (fun d => det_class d = "person"%string /\
                   0.75 <= det_confidence d <= 1) people /\
  ds = vehicles ++ people /\
  (0.7 < random (k + 1 + 6 * n) -> length people = 1%nat) /\
  (random (k + 1 + 6 * n) <= 0.7 -> length people = 0%nat).
Proof.
  intros n ds vehicles people.
  assert (Hn : (2 <= n <= 6)%nat).
  { assert (0 <= random k * 5 < IZR 5) as Hr
      by (pose proof (random_range k); lra).
    apply floor_range in Hr. unfold n. lia. }
  destruct (vehicleLoop_vehicles now n 0 (k + 1)) as (Hl & Hk & Hall).
  assert (Hveh : Forall (fun d => isVehicle d = true)
                        (fst (vehicleLoop random now n 0 (k + 1)))).
  { eapply Forall_impl; [|exact Hall].
    intros d [Hd _]. apply vehicleClass_isVehicle, Hd. }
  assert (Hnop : Forall (fun d => isPerson d = false)
                        (fst (vehicleLoop random now n 0 (k + 1)))).
  { eapply Forall_impl; [|exact Hall].
    intros d [Hd _]. apply vehicleClass_not_person, Hd. }
  unfold vehicles, people, ds, performObjectDetection. fold n.
  destruct (vehicleLoop random now n 0 (k + 1)) as [vs k1].
  cbn [fst snd] in Hl, Hk, Hall, Hveh, Hnop. subst k1.
  split; [exact Hn|].
  set (m := (k + 1 + 6 * n)%nat).
  destruct (Rlt_dec 0.7 (random m)) as [Hp|Hp]; cbn [fst].
  - rewrite !filter_app, (filter_keep _ _ Hveh), (filter_drop _ _ Hnop).
    cbn. rewrite app_nil_r.
    repeat split; trivial; try lra.
    constructor; [|constructor]. split; [reflexivity|].
    cbn [det_confidence newPerson].
    pose proof (random_range (m + 1)). lra.
  - rewrite (filter_keep _ _ Hveh), (filter_drop _ _ Hnop), app_nil_r.
    repeat split; trivial; lra.
Qed.

End Draws.

Import Scenario.

Lemma fixed_draw_range (n : nat) : 0 <= fixed_draw n < 1.
Proof. unfold fixed_draw. lra. Qed.

Lemma distance_A_B :
  calculateDistance (boundingBox vehicleA) (boundingBox vehicleB) = 40.
Proof.
  unfold calculateDistance. simpl.
  replace ((100 + 100 / 2 - (140 + 100 / 2))
           * ((100 + 100 / 2 - (140 + 100 / 2)) * 1)
           + (100 + 80 / 2 - (100 + 80 / 2))
             * ((100 + 80 / 2 - (100 + 80 / 2)) * 1))
    with (40 * 40) by lra.
  apply sqrt_square. lra.
Qed.

(** C7 at the extreme point: distance 0 and both confidences 1. *)
Lemma calculateCollisionConfidence_range_witness :
  0 <= calculateCollisionConfidence fixed_draw certain certain 0 0%nat <= 1.
Proof.
  apply (calculateCollisionConfidence_range fixed_draw fixed_draw_range
           certain certain 0 0%nat); simpl; lra.
Defined.

(** C4 on the pair of scenario A: distance 40, confidences 0.95 and
    0.93, variance term 0. *)
Lemma detectAccidents_pairs_witness :
  exists a, fst (checkPair fixed_draw 0%Z vehicleA vehicleB 0%nat) = Some a.
Proof.
  destruct (detectAccidents_pairs fixed_draw fixed_draw_range 0%Z) as [Hpair _].
  destruct (Hpair vehicleA vehicleB 0%nat) as (_ & [_ Hyes] & _).
  apply Hyes.
  change (sqrt ((centerX (boundingBox vehicleA)
                 - centerX (boundingBox vehicleB)) ^ 2
                + (centerY (boundingBox vehicleA)
                   - centerY (boundingBox vehicleB)) ^ 2))
    with (calculateDistance (boundingBox vehicleA) (boundingBox vehicleB)).
  rewrite distance_A_B. simpl. unfold fixed_draw.
  unfold Rmax. destruct (Rle_dec 0 (1 - 40 / 200)); [|lra].
  unfold Rmin. destruct (Rle_dec 1 (0.95 * 0.93 * (1 - 40 / 200) * 1.2 + 0 * 0.3));
    lra.
Defined.

(** C5 on one car and one pedestrian. *)
Lemma analyzeDetections_few_vehicles_witness :
  detectAccidents fixed_draw 0%Z [vehicleA; pedestrian] 0%nat = ([], 0%nat) /\
  accidents (fst (analyzeDetections fixed_draw 0%Z [vehicleA; pedestrian] 0%nat)) = [] /\
  accidentDetected
    (fst (analyzeDetections fixed_draw 0%Z [vehicleA; pedestrian] 0%nat)) = false /\
  confidence (fst (analyzeDetections fixed_draw 0%Z [vehicleA; pedestrian] 0%nat)) = 0.
Proof.
  apply (analyzeDetections_few_vehicles fixed_draw 0%Z [vehicleA; pedestrian] 0%nat).
  simpl. lia.
Defined.

(** C10 when every draw is 0: two vehicles and no pedestrian. *)
Lemma performObjectDetection_contents_witness :
  length (filter isVehicle (fst (performObjectDetection fixed_draw 0%Z 0%nat))) =
    Z.to_nat (JS.floor (fixed_draw 0%nat * 5) + 2) /\
  (2 <= Z.to_nat (JS.floor (fixed_draw 0%nat * 5) + 2) <= 6)%nat.
Proof.
  destruct (performObjectDetection_contents fixed_draw fixed_draw_range 0%Z 0%nat)
    as (Hn & Hl & _).
  split; [exact Hl | exact Hn].
Defined.

End MLServiceFacts.

(** * The generator on doubles reaches the ends of its ranges *)

Module Binary64Facts.

Import Floats Binary64.
Local Open Scope float_scope.

(** C10, counterexample.  When every draw is the largest double below
    1, the generator returns six vehicles and a pedestrian, and the
    confidence of each of them is exactly 1: the sums
    0.85 + r * 0.15 and 0.75 + r * 0.25 round to 1, so the confidence
    is not below 1. *)
Lemma largest_draw_confidence_one :
  (0 <=? largestDraw) = true /\ (largestDraw <? 1) = true /\
  map det_class (fst (performObjectDetection (fun _ => largestDraw) 0 0)) =
    ["bicycle"; "bicycle"; "bicycle"; "bicycle"; "bicycle"; "bicycle";
     "person"]%string /\
  map det_confidence
      (fst (performObjectDetection (fun _ => largestDraw) 0 0)) =
    [1; 1; 1; 1; 1; 1; 1] /\
  existsb (fun d => det_confidence d <? 1)
          (fst (performObjectDetection (fun _ => largestDraw) 0 0)) = false.
Proof. repeat split. Qed.

(** At the same draw the width and the height of a vehicle reach 200
    and 160 and the delay of [processVideoStream] reaches 5000, while
    the corner stays below 800 and 400 and the number of vehicles is
    6. *)
Lemma largest_draw_ends :
  let v := newVehicle (fun _ => largestDraw) 0 0 1 in
  width (boundingBox v) = 200 /\ height (boundingBox v) = 160 /\
  (x (boundingBox v) <? 800) = true /\ (y (boundingBox v) <? 400) = true /\
  processingDelay (fun _ => largestDraw) 0 = 5000 /\
  floor (largestDraw * 5) = 4%Z.
Proof. repeat split. Qed.

End Binary64Facts.

(** * Properties of the store *)

Module SupabaseFacts.

Import Supabase.

Section Table.

Variable Row : Type.
Variable row_id : Row -> uuid.
Variable fields : Row -> Row.
Hypothesis fields_keep_id : forall r, row_id (fields r) = row_id r.

(** The rows selected after an update of the same key are the rows
    selected before, updated. *)
Lemma select_update_same (id : uuid) (table : list Row) :
  select_eq row_id id (update_eq row_id fields id table) =
    map fields (select_eq row_id id table).
Proof.
  induction table as [|r table IH]; simpl; [reflexivity|].
  destruct (eq_id row_id id r) eqn:E; simpl.
  - unfold eq_id in *. rewrite fields_keep_id, E. simpl. now rewrite IH.
  - rewrite E. exact IH.
Qed.

(** Rows of another key are left as they are. *)
Lemma select_update_other (id id' : uuid) (table : list Row) :
  id' <> id ->
  select_eq row_id id' (update_eq row_id fields id table) =
    select_eq row_id id' table.
Proof.
  intros Hne. induction table as [|r table IH]; simpl; [reflexivity|].
  destruct (eq_id row_id id r) eqn:E; simpl.
  - unfold eq_id in *. rewrite fields_keep_id.
    apply Nat.eqb_eq in E. rewrite E.
    destruct (Nat.eqb_spec id id') as [->|_]; [congruence | exact IH].
  - now rewrite IH.
Qed.

End Table.

End SupabaseFacts.

(** * Properties of the pending-alert routes *)

Module PendingAlertsFacts.

Import Supabase PendingAlerts SupabaseFacts Scenario.

Lemma approve_fields_id (by_ : option string) (now : Time) (p : PendingAlert) :
  pa_id (approve_fields by_ now p) = pa_id p.
Proof. reflexivity. Qed.

Lemma reject_fields_id (reason by_ : option string) (now : Time)
    (p : PendingAlert) :
  pa_id (reject_fields reason by_ now p) = pa_id p.
Proof. reflexivity. Qed.

Lemma alert_fields_id (p : PendingAlert) (s : Stream) :
  stream_id (alert_fields p s) = stream_id s.
Proof. reflexivity. Qed.

(** The approve route on a row that is found, whose severity the
    [alerts] table accepts and whose stream exists: the response and
    the state it leaves.  The status of the row plays no part. *)
Lemma approve_found (w : World) (id : uuid) (p : PendingAlert)
    (by_ : option string) (t_update t_insert : Time) :
  select_eq pa_id id (pending_alerts w) = [p] ->
  valid_severity (JS.or_string (dd_severity (pa_detection_data p)) "high") = true ->
  stream_exists (pa_stream_id p) w = true ->
  approve id by_ t_update t_insert w =
    (Json {| approve_message := "Alert approved and created";
             pendingAlert := p;
             finalAlert := Some (alertData p t_insert (next_uuid w)) |},
     {| streams := update_eq stream_id (alert_fields p) (pa_stream_id p)
                     (streams w);
        pending_alerts := update_eq pa_id (approve_fields by_ t_update) id
                            (pending_alerts w);
        alerts := alerts w ++ [alertData p t_insert (next_uuid w)];
        next_uuid := S (next_uuid w);
        emitted := emitted w
                   ++ [alert_approved id
                         (Some (alertData p t_insert (next_uuid w)))];
        intervals := intervals w;
        next_handle := next_handle w |}).
Proof.
  intros Hsel Hsev Hstream.
  unfold approve. rewrite Hsel. cbn [single resolved error data].
  unfold insert_alert.
  cbn [alert_severity alert_stream_id alertData].
  rewrite Hsev.
  unfold stream_exists, with_pending_alerts in *. cbn [streams].
  rewrite Hstream. reflexivity.
Qed.

(** The reject route on a row that is found. *)
Lemma reject_found (w : World) (id : uuid) (p : PendingAlert)
    (reason by_ : option string) (now : Time) :
  select_eq pa_id id (pending_alerts w) = [p] ->
  reject id reason by_ now w =
    (Json {| reject_message := "Alert rejected";
             rejected_alert := reject_fields reason by_ now p |},
     {| streams := streams w;
        pending_alerts := update_eq pa_id (reject_fields reason by_ now) id
                            (pending_alerts w);
        alerts := alerts w;
        next_uuid := next_uuid w;
        emitted := emitted w
                   ++ [alert_rejected (reject_fields reason by_ now p)];
        intervals := intervals w;
        next_handle := next_handle w |}).
Proof.
  intros Hsel. unfold reject, with_pending_alerts, emit.
  cbn [pending_alerts].
  rewrite !(select_update_same _ pa_id _ (reject_fields_id reason by_ now)), Hsel.
  reflexivity.
Qed.

(** C1, as stated, fails: the pending alert of [world1] is approved and
    has its alert (key 11); approving it again is answered with success
    and inserts a second alert (key 12), and rejecting it is answered
    with success and turns the approved row into a rejected one. *)
Lemma decided_alert_decided_again :
  map pa_status (pending_alerts world1) = [approved] /\
  map alert_id (alerts world1) = [11] /\
  fst (approve 10 operator1 2000 2001 world1) =
    Json {| approve_message := "Alert approved and created";
            pendingAlert := approved1;
            finalAlert := Some (alertData approved1 2001 12) |} /\
  map alert_id (alerts (snd (approve 10 operator1 2000 2001 world1))) = [11; 12] /\
  fst (reject 10 None operator1 3000 world1) =
    Json {| reject_message := "Alert rejected";
            rejected_alert := reject_fields None operator1 3000 approved1 |} /\
  map pa_status (pending_alerts (snd (reject 10 None operator1 3000 world1))) =
    [rejected].
Proof. repeat split. Qed.

(** C1, amended. A pending alert that has left the state pending is not
    refused a further decision.  When its severity passes the check of
    the alerts table and its stream exists, approve answers with
    success, writes the status approved with the new approver and time,
    and inserts one more alert; reject answers with success, writes the
    status rejected and inserts no alert. *)
Theorem decided_alert_not_refused (w : World) (id : uuid) (p : PendingAlert) :
  select_eq pa_id id (pending_alerts w) = [p] ->
  pa_status p <> pending ->
  valid_severity (JS.or_string (dd_severity (pa_detection_data p)) "high") = true ->
  stream_exists (pa_stream_id p) w = true ->
  (forall (by_ : option string) (t_update t_insert : Time),
     let r := approve id by_ t_update t_insert w in
     fst r = Json {| approve_message := "Alert approved and created";
                     pendingAlert := p;
                     finalAlert := Some (alertData p t_insert (next_uuid w)) |} /\
     select_eq pa_id id (pending_alerts (snd r)) = [approve_fields by_ t_update p] /\
     pa_status (approve_fields by_ t_update p) = approved /\
     alerts (snd r) = alerts w ++ [alertData p t_insert (next_uuid w)]) /\
  (forall (reason by_ : option string) (now : Time),
     let r := reject id reason by_ now w in
     fst r = Json {| reject_message := "Alert rejected";
                     rejected_alert := reject_fields reason by_ now p |} /\
     select_eq pa_id id (pending_alerts (snd r)) = [reject_fields reason by_ now p] /\
     pa_status (reject_fields reason by_ now p) = rejected /\
     alerts (snd r) = alerts w).
Proof.
  intros Hsel _ Hsev Hstream. split.
  - intros by_ t_update t_insert r. unfold r.
    rewrite (approve_found w id p by_ t_update t_insert Hsel Hsev Hstream).
    cbn [fst snd pending_alerts alerts].
    rewrite (select_update_same _ pa_id _ (approve_fields_id by_ t_update)), Hsel.
    repeat split.
  - intros reason by_ now r. unfold r.
    rewrite (reject_found w id p reason by_ now Hsel).
    cbn [fst snd pending_alerts alerts].
    rewrite (select_update_same _ pa_id _ (reject_fields_id reason by_ now)), Hsel.
    repeat split.
Qed.

(** C1, amended, on the approved pending alert of [world1]. *)
Lemma decided_alert_not_refused_witness :
  alerts (snd (approve 10 operator1 2000 2001 world1)) =
    alerts world1 ++ [alertData approved1 2001 (next_uuid world1)] /\
  alerts (snd (reject 10 None operator1 3000 world1)) = alerts world1.
Proof.
  assert (Hstatus : pa_status approved1 <> pending) by discriminate.
  destruct (decided_alert_not_refused world1 10 approved1
              eq_refl Hstatus eq_refl eq_refl) as [Happrove Hreject].
  split.
  - apply (Happrove operator1 2000%Z 2001%Z).
  - apply (Hreject None operator1 3000%Z).
Defined.

(** C3, on a stream that has counted three accidents.  The approval
    writes the status approved, inserts one alert with status sent and
    the severity of the payload, and puts the stream in status alert;
    the accident count of the stream is then 1, not 4. *)
Theorem approve_overwrites_accident_count :
  map accident_count (streams world0) = [3%Z] /\
  map pa_status (pending_alerts world0) = [pending] /\
  fst (approve 10 operator1 1000 1001 world0) =
    Json {| approve_message := "Alert approved and created";
            pendingAlert := awaiting;
            finalAlert := Some (alertData awaiting 1001 11) |} /\
  pending_alerts world1 = [approved1] /\
  map pa_status (pending_alerts world1) = [approved] /\
  map approved_by (pending_alerts world1) = [Some "operator-1"%string] /\
  map approved_at (pending_alerts world1) = [Some 1000%Z] /\
  alerts world1 = [alertData awaiting 1001 11] /\
  map alert_status (alerts world1) = [sent] /\
  map alert_severity (alerts world1) = ["high"%string] /\
  map alert_location (alerts world1) = ["Main St"%string] /\
  map alert_confidence (alerts world1) = [pa_confidence awaiting] /\
  map sent_at (alerts world1) = [Some 1001%Z] /\
  map stream_status (streams world1) = [alert] /\
  map accident_count (streams world1) = [1%Z].
Proof. repeat split. Qed.

(** The row of the owning stream after an approval: status alert, and
    as accident count the [accident_count] of the payload, or 1, whatever
    the stream had counted before. *)
Lemma approve_stream_row (w : World) (id : uuid) (p : PendingAlert)
    (s : Stream) (by_ : option string) (t_update t_insert : Time) :
  select_eq pa_id id (pending_alerts w) = [p] ->
  select_eq stream_id (pa_stream_id p) (streams w) = [s] ->
  valid_severity (JS.or_string (dd_severity (pa_detection_data p)) "high") = true ->
  select_eq stream_id (pa_stream_id p)
    (streams (snd (approve id by_ t_update t_insert w))) = [alert_fields p s] /\
  stream_status (alert_fields p s) = alert /\
  accident_count (alert_fields p s) =
    JS.or_int (dd_accident_count (pa_detection_data p)) 1.
Proof.
  intros Hsel Hstream Hsev.
  assert (Hex : stream_exists (pa_stream_id p) w = true).
  { unfold stream_exists. apply existsb_exists. exists s.
    assert (Hin : In s (select_eq stream_id (pa_stream_id p) (streams w)))
      by (rewrite Hstream; now left).
    apply filter_In in Hin. exact Hin. }
  rewrite (approve_found w id p by_ t_update t_insert Hsel Hsev Hex).
  cbn [snd streams].
  rewrite (select_update_same _ stream_id _ (alert_fields_id p)), Hstream.
  repeat split.
Qed.

(** Whatever the stream had counted, the approval of a pending alert
    made by the polling loop leaves the count at 1. *)
Lemma approve_count_of_detection (stream s : Stream)
    (result : MLService.DetectionResult) (p : PendingAlert) :
  pa_detection_data p = Streams.detectionData stream result ->
  accident_count (alert_fields p s) = 1%Z.
Proof. intros E. unfold alert_fields. cbn. rewrite E. reflexivity. Qed.

(** C9. When the reject route answers with success, the pending alert
    of that key was the only one with it; it now has the status
    rejected, the approver given (or "system"), the time of the call and
    the reason given (or "User rejected"); pending alerts of other keys,
    the alerts and the streams are as before. *)
Theorem reject_effects (w : World) (id : uuid) (reason by_ : option string)
    (now : Time) (body : Rejected) (w' : World) :
  reject id reason by_ now w = (Json body, w') ->
  exists p,
    select_eq pa_id id (pending_alerts w) = [p] /\
    rejected_alert body = reject_fields reason by_ now p /\
    select_eq pa_id id (pending_alerts w') = [rejected_alert body] /\
    pa_status (rejected_alert body) = rejected /\
    approved_by (rejected_alert body) = Some (JS.or_string by_ "system") /\
    approved_at (rejected_alert body) = Some now /\
    rejection_reason (rejected_alert body) =
      Some (JS.or_string reason "User rejected") /\
    (forall id', id' <> id ->
       select_eq pa_id id' (pending_alerts w') =
         select_eq pa_id id' (pending_alerts w)) /\
    alerts w' = alerts w /\
    streams w' = streams w.
Proof.
  intros H.
  destruct (select_eq pa_id id (pending_alerts w)) as [|p [|q rest]] eqn:Hsel.
  - exfalso. revert H. unfold reject, with_pending_alerts.
    cbn [pending_alerts].
    rewrite !(select_update_same _ pa_id _ (reject_fields_id reason by_ now)), Hsel.
    discriminate.
  - rewrite (reject_found w id p reason by_ now Hsel) in H.
    injection H as <- <-. exists p.
    cbn [rejected_alert pending_alerts alerts streams].
    rewrite (select_update_same _ pa_id _ (reject_fields_id reason by_ now)), Hsel.
    repeat split.
    intros id' Hne.
    apply (select_update_other _ pa_id _ (reject_fields_id reason by_ now)), Hne.
  - exfalso. revert H. unfold reject, with_pending_alerts.
    cbn [pending_alerts].
    rewrite !(select_update_same _ pa_id _ (reject_fields_id reason by_ now)), Hsel.
    discriminate.
Qed.

(** C9 on the rejection of scenario D. *)
Lemma reject_effects_witness :
  exists p,
    select_eq pa_id 10 (pending_alerts world0) = [p] /\
    rejection_reason (reject_fields (Some "false positive"%string) operator1 3000 p)
      = Some "false positive"%string /\
    alerts (snd (reject 10 (Some "false positive"%string) operator1 3000 world0))
      = alerts world0 /\
    streams (snd (reject 10 (Some "false positive"%string) operator1 3000 world0))
      = streams world0.
Proof.
  destruct (reject_effects world0 10 (Some "false positive"%string) operator1 3000%Z
              {| reject_message := "Alert rejected";
                 rejected_alert :=
                   reject_fields (Some "false positive"%string) operator1 3000
                     awaiting |}
              (snd (reject 10 (Some "false positive"%string) operator1 3000 world0))
              eq_refl)
    as (p & Hsel & _ & _ & _ & _ & _ & _ & _ & Halerts & Hstreams).
  exists p. repeat split; trivial.
Defined.

End PendingAlertsFacts.

(** * Properties of the stream routes *)

Module StreamsFacts.

Import Supabase Streams SupabaseFacts Scenario.

Lemma start_fields_id (now : Time) (s : Stream) :
  stream_id (start_fields now s) = stream_id s.
Proof. reflexivity. Qed.

Lemma selected_id {Row : Type} (row_id : Row -> uuid) (id : uuid)
    (table : list Row) (r : Row) :
  select_eq row_id id table = [r] -> row_id r = id.
Proof.
  intros H.
  assert (Hin : In r (select_eq row_id id table)) by (rewrite H; now left).
  apply filter_In in Hin. destruct Hin as [_ Hid].
  apply Nat.eqb_eq, Hid.
Qed.

(** The start route on a stream that is found: the response and the
    state it leaves.  Neither the status of the stream nor the timers
    already set play a part. *)
Lemma start_found (w : World) (id : uuid) (s : Stream) (now : Time) :
  select_eq stream_id id (streams w) = [s] ->
  start id now w =
    (Json {| start_message := "Stream monitoring started";
             started_stream := start_fields now s |},
     {| streams := update_eq stream_id (start_fields now) id (streams w);
        pending_alerts := pending_alerts w;
        alerts := alerts w;
        next_uuid := next_uuid w;
        emitted := emitted w ++ [stream_started (start_fields now s)];
        intervals := intervals w
                     ++ [{| handle := next_handle w;
                            interval_stream := start_fields now s |}];
        next_handle := S (next_handle w) |}).
Proof.
  intros Hsel. unfold start. rewrite Hsel.
  cbn [single resolved error data].
  unfold with_streams. cbn [streams].
  rewrite (select_update_same _ stream_id _ (start_fields_id now)), Hsel.
  reflexivity.
Qed.

(** C2, as stated, fails: the stream of [world0] is active, monitored
    and polled by the timer 0; starting it is answered with success and
    sets the timer 1 on the same stream, and a tick of either timer
    leaves both set. *)
Lemma start_twice_two_loops :
  map stream_status (streams world0) = [active] /\
  map is_processing (streams world0) = [true] /\
  polling 1 world0 = [timer0] /\
  fst (start 1 2000 world0) =
    Json {| start_message := "Stream monitoring started";
            started_stream := start_fields 2000 cam1 |} /\
  polling 1 world2 = [timer0; timer1] /\
  polling 1 (tick timer0 quiet 2500 world2) = [timer0; timer1] /\
  polling 1 (tick timer1 quiet 2500 world2) = [timer0; timer1].
Proof. repeat split. Qed.

(** C2, amended. Starting a stream that is already active and monitored
    is answered with success like any other start: the stream is
    written as active and monitored, and one more timer is set for it
    next to the ones already polling it. *)
Theorem start_on_monitored_stream (w : World) (id : uuid) (s : Stream)
    (now : Time) :
  select_eq stream_id id (streams w) = [s] ->
  stream_status s = active ->
  is_processing s = true ->
  fst (start id now w) =
    Json {| start_message := "Stream monitoring started";
            started_stream := start_fields now s |} /\
  select_eq stream_id id (streams (snd (start id now w))) = [start_fields now s] /\
  polling id (snd (start id now w)) =
    polling id w ++ [{| handle := next_handle w;
                        interval_stream := start_fields now s |}] /\
  length (polling id (snd (start id now w))) = S (length (polling id w)).
Proof.
  intros Hsel _ _.
  rewrite (start_found w id s now Hsel). cbn [fst snd streams].
  rewrite (select_update_same _ stream_id _ (start_fields_id now)), Hsel.
  assert (Hpoll :
    polling id
      {| streams := update_eq stream_id (start_fields now) id (streams w);
         pending_alerts := pending_alerts w;
         alerts := alerts w;
         next_uuid := next_uuid w;
         emitted := emitted w ++ [stream_started (start_fields now s)];
         intervals := intervals w
                      ++ [{| handle := next_handle w;
                             interval_stream := start_fields now s |}];
         next_handle := S (next_handle w) |} =
    polling id w ++ [{| handle := next_handle w;
                        interval_stream := start_fields now s |}]).
  { unfold polling. cbn [intervals]. rewrite filter_app. cbn.
    rewrite (selected_id stream_id id (streams w) s Hsel), Nat.eqb_refl.
    reflexivity. }
  rewrite Hpoll, length_app, Nat.add_1_r. repeat split.
Qed.

(** C2, amended, on the monitored stream of [world0]. *)
Lemma start_on_monitored_stream_witness :
  polling 1 (snd (start 1 2000 world0)) =
    polling 1 world0 ++ [{| handle := next_handle world0;
                            interval_stream := start_fields 2000 cam1 |}] /\
  length (polling 1 (snd (start 1 2000 world0))) = S (length (polling 1 world0)).
Proof.
  destruct (start_on_monitored_stream world0 1 cam1 2000 eq_refl eq_refl eq_refl)
    as (_ & _ & Hpoll & Hlen).
  split; [exact Hpoll | exact Hlen].
Defined.

End StreamsFacts.

(** * Further properties of the collision-inference service *)

Module MLServiceMoreFacts.

Import MLService Reference Geometry MLServiceFacts.
Local Open Scope R_scope.

Lemma calculateDistance_sym (b1 b2 : BoundingBox) :
  calculateDistance b1 b2 = calculateDistance b2 b1.
Proof. unfold calculateDistance. f_equal. ring. Qed.

Lemma calculateDistance_centers (b1 b2 : BoundingBox) :
  calculateDistance b1 b2 =
    sqrt ((centerX b1 - centerX b2) ^ 2 + (centerY b1 - centerY b2) ^ 2).
Proof. reflexivity. Qed.

(** X1. The distance of two boxes is not negative, does not depend on
    the order of the boxes, is 0 from a box to itself, and depends on a
    box through its centre only: two boxes with the same centre,
    whatever their sizes, are at the same distance from any other
    box. *)
Theorem calculateDistance_basics (b1 b1' b2 : BoundingBox) :
  0 <= calculateDistance b1 b2 /\
  calculateDistance b1 b2 = calculateDistance b2 b1 /\
  calculateDistance b1 b1 = 0 /\
  (centerX b1 = centerX b1' -> centerY b1 = centerY b1' ->
   calculateDistance b1 b2 = calculateDistance b1' b2 /\
   calculateDistance b1 b1' = 0).
Proof.
  split; [apply sqrt_pos|]. split; [apply calculateDistance_sym|].
  rewrite !calculateDistance_centers.
  split.
  - replace ((centerX b1 - centerX b1) ^ 2 + (centerY b1 - centerY b1) ^ 2)
      with 0 by ring.
    apply sqrt_0.
  - intros Hx Hy. rewrite Hx, Hy. split; [reflexivity|].
    replace ((centerX b1' - centerX b1') ^ 2 + (centerY b1' - centerY b1') ^ 2)
      with 0 by ring.
    apply sqrt_0.
Qed.

Lemma calculateCollisionConfidence_sym (random : nat -> R)
    (v1 v2 : Detection) (d : R) (k : nat) :
  calculateCollisionConfidence random v1 v2 d k =
    calculateCollisionConfidence random v2 v1 d k.
Proof. unfold calculateCollisionConfidence. f_equal. ring. Qed.

(** X2. The decision on a pair does not depend on which vehicle comes
    first: with the same draw, the exchanged pair yields the same
    candidate with the two classes exchanged, or none either. *)
Theorem checkPair_symmetric (random : nat -> R) (now : Time)
    (v1 v2 : Detection) (k : nat) :
  fst (checkPair random now v2 v1 k) =
    option_map swapVehicles (fst (checkPair random now v1 v2 k)) /\
  snd (checkPair random now v2 v1 k) = snd (checkPair random now v1 v2 k).
Proof.
  unfold checkPair.
  rewrite (calculateDistance_sym (boundingBox v2) (boundingBox v1)).
  rewrite (calculateCollisionConfidence_sym random v2 v1).
  destruct (Rlt_dec _ maxDistanceBetweenVehicles); [|split; reflexivity].
  destruct (Rlt_dec collisionConfidenceThreshold _); [|split; reflexivity].
  split; [|reflexivity]. cbn. unfold swapVehicles. cbn.
  do 2 f_equal. f_equal; lra.
Qed.

Lemma severity_above_threshold (c d : R) :
  0.7 < c ->
  In (calculateSeverity c d) ["critical"; "high"; "medium"]%string.
Proof.
  intros Hc. unfold calculateSeverity.
  destruct (Rlt_dec 0.85 c); [simpl; tauto|].
  destruct (Rlt_dec 0.75 c); [simpl; tauto|].
  destruct (Rlt_dec 0.65 c); [simpl; tauto|lra].
Qed.

Lemma pairs_length {A : Type} (l : list A) :
  (2 * length (pairs l) = length l * (length l - 1))%nat.
Proof.
  induction l as [|a l IH]; [reflexivity|].
  cbn [pairs length]. rewrite length_app, length_map. nia.
Qed.

Lemma fold_sum_bounds (lo hi : R) (l : list R) :
  Forall (fun c => lo <= c <= hi) l ->
  lo * INR (length l) <= fold_right Rplus 0 l <= hi * INR (length l).
Proof.
  induction 1 as [|c l Hc _ IH].
  - simpl. lra.
  - change (length (c :: l)) with (S (length l)). rewrite S_INR.
    simpl. lra.
Qed.

Lemma mean_bounds (lo hi : R) (l : list R) :
  l <> [] ->
  Forall (fun c => lo <= c <= hi) l ->
  lo <= fold_right Rplus 0 l / INR (length l) <= hi.
Proof.
  intros Hne Hall.
  assert (Hn : 0 < INR (length l)).
  { destruct l; [congruence|]. apply lt_0_INR. simpl. lia. }
  pose proof (fold_sum_bounds lo hi l Hall) as [Hl Hh].
  split.
  - apply Rmult_le_reg_r with (INR (length l)); [exact Hn|].
    unfold Rdiv. rewrite Rmult_assoc, Rinv_l by lra. lra.
  - apply Rmult_le_reg_r with (INR (length l)); [exact Hn|].
    unfold Rdiv. rewrite Rmult_assoc, Rinv_l by lra. lra.
Qed.

(** The aggregate of confidences that all lie in (0.7, 1]. *)
Lemma aggregate_bounds (accs : list Accident) :
  accs <> [] ->
  Forall (fun a => 0.7 < acc_confidence a <= 1) accs ->
  0.7 < calculateAccidentConfidence accs <= 1.
Proof.
  intros Hne Hall. destruct accs as [|a rest]; [congruence|].
  unfold calculateAccidentConfidence. cbn [length Nat.eqb].
  rewrite sumConfidence_sum.
  assert (Hs : 0.7 < fold_right Rplus 0 (map acc_confidence (a :: rest))
                     / INR (S (length rest))).
  { assert (Hn : 0 < INR (S (length rest))) by (apply lt_0_INR; lia).
    assert (Hsum : 0.7 * INR (S (length rest))
                   < fold_right Rplus 0 (map acc_confidence (a :: rest))).
    { inversion Hall as [|? ? Ha Hrest]; subst.
      assert (Hr : Forall (fun c => 0.7 <= c <= 1) (map acc_confidence rest)).
      { apply Forall_map. eapply Forall_impl; [|exact Hrest].
        intros b Hb. lra. }
      apply fold_sum_bounds in Hr. rewrite length_map in Hr.
      rewrite S_INR. simpl. lra. }
    apply Rmult_lt_reg_r with (INR (S (length rest))); [exact Hn|].
    unfold Rdiv. rewrite Rmult_assoc, Rinv_l by lra. lra. }
  split.
  - apply Rmin_glb_lt; [lra|].
    destruct (Nat.ltb 1 (S (length rest))); lra.
  - apply Rmin_l.
Qed.

Section Candidates.

Variable random : nat -> R.

Lemma collect_counts (now : Time) (ps : list (Detection * Detection))
    (k : nat) :
  (k <= snd (collect random now ps k))%nat /\
  (length (fst (collect random now ps k)) + k
   <= snd (collect random now ps k))%nat /\
  (snd (collect random now ps k) <= k + length ps)%nat.
Proof.
  revert k. induction ps as [|[v1 v2] ps IH]; intros k; simpl.
  - lia.
  - destruct (checkPair_decides random now v1 v2 k)
      as [(_ & _ & a & E & _)|[(_ & _ & E)|(_ & E)]]; rewrite E;
      match goal with
      | |- context [collect random now ps ?n] =>
          specialize (IH n); destruct (collect random now ps n) as [later k2]
      end; simpl in *; lia.
Qed.

Lemma collect_described (now : Time) (ps : list (Detection * Detection))
    (k : nat) :
  Forall (fun a =>
            severity a = calculateSeverity (acc_confidence a) (distance a) /\
            0 <= distance a < 100 /\ 0.7 < acc_confidence a <= 1)
         (fst (collect random now ps k)).
Proof.
  revert k. induction ps as [|[v1 v2] ps IH]; intros k; simpl.
  - constructor.
  - destruct (checkPair_decides random now v1 v2 k)
      as [(Hd & Hc & a & E & _ & _ & Ea & Ed & Es)|[(_ & _ & E)|(_ & E)]];
      rewrite E;
      match goal with
      | |- context [collect random now ps ?n] =>
          specialize (IH n); destruct (collect random now ps n) as [later k2]
      end; simpl in *; trivial.
    constructor; trivial. rewrite Ea, Ed, Es. repeat split; trivial.
    + unfold calculateDistance. apply sqrt_pos.
    + apply Rmin_l.
Qed.

(** X3. Every candidate of [detectAccidents] has a distance in [0, 100), a
    confidence in (0.7, 1] and the severity of that confidence, which is
    critical, high or medium and never low.  With n vehicle-class
    objects there are at most n(n-1)/2 candidates, and at most one draw
    per pair and at least one per candidate is made. *)
Theorem detectAccidents_candidates (now : Time) (detections : list Detection)
    (k : nat) :
  let r := detectAccidents random now detections k in
  let n := length (filter isVehicle detections) in
  Forall (fun a =>
            In (severity a) ["critical"; "high"; "medium"]%string /\
            severity a = calculateSeverity (acc_confidence a) (distance a) /\
            0 <= distance a < 100 /\ 0.7 < acc_confidence a <= 1)
         (fst r) /\
  (k <= snd r)%nat /\
  (length (fst r) <= snd r - k)%nat /\
  (2 * (snd r - k) <= n * (n - 1))%nat /\
  (2 * length (fst r) <= n * (n - 1))%nat.
Proof.
  intros r n. unfold r. rewrite detectAccidents_collect.
  pose proof (collect_counts now (pairs (filter isVehicle detections)) k)
    as (H1 & H2 & H3).
  pose proof (pairs_length (filter isVehicle detections)) as Hp. fold n in Hp.
  split.
  - eapply Forall_impl; [|apply collect_described].
    intros a (Es & Hd & Hc). repeat split; try tauto.
    rewrite Es. apply severity_above_threshold. tauto.
  - lia.
Qed.

(** X4. The result of the analysis of a list of detections either reports
    no accident, with no candidate and confidence 0, or reports an
    accident, with candidates and a confidence in (0.7, 1]. *)
Theorem analyzeDetections_confidence (now : Time)
    (detections : list Detection) (k : nat) :
  let r := fst (analyzeDetections random now detections k) in
  (accidents r = [] /\ accidentDetected r = false /\ confidence r = 0) \/
  (accidents r <> [] /\ accidentDetected r = true /\ 0.7 < confidence r <= 1).
Proof.
  intros r. unfold r, analyzeDetections.
  pose proof (collect_described now (pairs (filter isVehicle detections)) k)
    as Hall.
  rewrite <- detectAccidents_collect in Hall.
  destruct (detectAccidents random now detections k) as [accs k1].
  cbn [fst] in *. destruct accs as [|a rest].
  - left. repeat split.
  - right. split; [discriminate|]. split; [reflexivity|].
    unfold frameResult. cbn [confidence length Nat.ltb Nat.leb].
    apply aggregate_bounds; [discriminate|].
    eapply Forall_impl; [|exact Hall]. intros b (_ & _ & Hb). exact Hb.
Qed.

End Candidates.

Lemma vehicle_not_person (d : Detection) :
  isVehicle d = true -> isPerson d = false.
Proof.
  unfold isVehicle, isPerson. intros H.
  apply existsb_exists in H. destruct H as (c & Hin & Hc).
  apply String.eqb_eq in Hc. rewrite Hc.
  apply vehicleClass_not_person, Hin.
Qed.

Lemma filter_disjoint_length {A : Type} (f g : A -> bool) (l : list A) :
  (forall a, f a = true -> g a = false) ->
  (length (filter f l) + length (filter g l) <= length l)%nat.
Proof.
  intros Hfg. induction l as [|a l IH]; simpl; [lia|].
  destruct (f a) eqn:Ef.
  - rewrite (Hfg a Ef). simpl. lia.
  - destruct (g a); simpl; lia.
Qed.

(** X5. The summary of a frame counts no object twice: the numbers of
    vehicles and of persons add up to at most the number of objects.
    The crowd level depends on the number of vehicles only: heavy above
    4, moderate for 3 and 4, light below.  The average confidence is 0
    for no object and otherwise lies in [0, 1] when the confidence of
    every object does. *)
Theorem analyzeFrameContext_summary (detections : list Detection) :
  let fa := analyzeFrameContext detections in
  (vehicleCount fa + personCount fa <= objectCount fa)%nat /\
  objectCount fa = length detections /\
  (crowdLevel fa = "heavy"%string <-> (4 < vehicleCount fa)%nat) /\
  (crowdLevel fa = "moderate"%string <-> (2 < vehicleCount fa <= 4)%nat) /\
  (crowdLevel fa = "light"%string <-> (vehicleCount fa <= 2)%nat) /\
  (detections = [] -> averageConfidence fa = 0) /\
  (detections <> [] ->
   Forall (fun d => 0 <= det_confidence d <= 1) detections ->
   0 <= averageConfidence fa <= 1).
Proof.
  intros fa. unfold fa, analyzeFrameContext.
  cbn [vehicleCount personCount objectCount crowdLevel averageConfidence].
  set (n := length (filter isVehicle detections)).
  split; [apply filter_disjoint_length, vehicle_not_person|].
  split; [reflexivity|].
  split; [|split; [|split; [|split]]].
  - destruct (Nat.ltb_spec 4 n); [tauto|].
    destruct (Nat.ltb_spec 2 n); split; (discriminate || lia).
  - destruct (Nat.ltb_spec 4 n); [split; (discriminate || lia)|].
    destruct (Nat.ltb_spec 2 n); split; try discriminate; try lia; reflexivity.
  - destruct (Nat.ltb_spec 4 n); [split; (discriminate || lia)|].
    destruct (Nat.ltb_spec 2 n); split; try discriminate; try lia; reflexivity.
  - intros ->. reflexivity.
  - intros Hne Hall.
    destruct detections as [|d rest]; [congruence|].
    change (Nat.ltb 0 (length (d :: rest))) with true. cbv iota.
    rewrite fold_left_sum, Rplus_0_l.
    rewrite <- (length_map det_confidence (d :: rest)).
    apply (mean_bounds 0 1); [discriminate|].
    apply Forall_map. exact Hall.
Qed.

Section Generated.

Variable random : nat -> R.
Hypothesis random_range : forall n, 0 <= random n < 1.

(** The two ways [performObjectDetection] ends, with the number of
    vehicles [n] and the index [m] of the draw that decides on the
    pedestrian. *)
Lemma performObjectDetection_cases (now : Time) (k : nat) :
  let n := Z.to_nat (JS.floor (random k * 5) + 2) in
  let m := (k + 1 + 6 * n)%nat in
  let vs := fst (vehicleLoop random now n 0 (k + 1)) in
  (0.7 < random m /\
   performObjectDetection random now k =
     (vs ++ [newPerson random now (m + 1)], (m + 4)%nat)) \/
  (random m <= 0.7 /\
   performObjectDetection random now k = (vs, (m + 1)%nat)).
Proof.
  intros n m vs. unfold performObjectDetection. fold n.
  destruct (vehicleLoop_vehicles random random_range now n 0 (k + 1))
    as (_ & Hk & _).
  unfold vs. destruct (vehicleLoop random now n 0 (k + 1)) as [l k1].
  cbn [fst snd] in *. subst k1. fold m.
  destruct (Rlt_dec 0.7 (random m)) as [Hp|Hp]; [left|right]; split;
    trivial; lra.
Qed.

Lemma vehicle_count_range (k : nat) :
  (2 <= Z.to_nat (JS.floor (random k * 5) + 2) <= 6)%nat.
Proof.
  assert (0 <= random k * 5 < IZR 5) as Hr
    by (pose proof (random_range k); lra).
  apply floor_range in Hr. lia.
Qed.

Lemma vehicleLoop_boxes (now : Time) (n i k : nat) :
  Forall box_in_range (fst (vehicleLoop random now n i k)).
Proof.
  revert i k. induction n as [|n IH]; intros i k; simpl; [constructor|].
  specialize (IH (S i) (k + 6)%nat).
  destruct (vehicleLoop random now n (S i) (k + 6)) as [later k'].
  cbn [fst] in *. constructor; [|exact IH].
  unfold box_in_range. cbn [boundingBox newVehicle x y width height].
  pose proof (random_range (k + 2)). pose proof (random_range (k + 3)).
  pose proof (random_range (k + 4)). pose proof (random_range (k + 5)).
  repeat split; try lra.
  all: exfalso;
    destruct (newVehicle_vehicle random random_range now i k) as [Hc _];
    apply vehicleClass_not_person in Hc;
    unfold isPerson in *; congruence.
Qed.

(** X6. Every generated object has its corner in [0, 800) x [0, 400); a
    vehicle is 80 to 200 wide and 60 to 160 high, both ends included, a
    pedestrian 30 by 70.
    A call makes 6n + 2 draws, or 6n + 5 with a pedestrian, n being the
    number of vehicles: between 14 and 41. *)
Theorem performObjectDetection_boxes (now : Time) (k : nat) :
  let n := Z.to_nat (JS.floor (random k * 5) + 2) in
  let r := performObjectDetection random now k in
  Forall box_in_range (fst r) /\
  (snd r = k + 6 * n + 2 \/ snd r = k + 6 * n + 5)%nat /\
  (k + 14 <= snd r <= k + 41)%nat.
Proof.
  intros n r. unfold r.
  pose proof (vehicle_count_range k) as Hn. fold n in Hn.
  pose proof (vehicleLoop_boxes now n 0 (k + 1)) as Hb.
  destruct (performObjectDetection_cases now k) as [[Hp E]|[Hp E]];
    fold n in E; rewrite E; cbn [fst snd].
  - split; [|lia].
    apply Forall_app. split; [exact Hb|].
    constructor; [|constructor].
    unfold box_in_range. cbn [boundingBox newPerson x y width height].
    pose proof (random_range (k + 1 + 6 * n + 1 + 1)).
    pose proof (random_range (k + 1 + 6 * n + 1 + 2)).
    repeat split; try lra. discriminate.
  - split; [exact Hb | lia].
Qed.

Lemma generated_summary (vs extra : list Detection) :
  vs <> [] ->
  Forall (fun d => In (det_class d) vehicleClasses /\
                   0.85 <= det_confidence d <= 1) vs ->
  Forall (fun d => det_class d = "person"%string /\
                   0.75 <= det_confidence d <= 1) extra ->
  vehicleCount (analyzeFrameContext (vs ++ extra)) = length vs /\
  personCount (analyzeFrameContext (vs ++ extra)) = length extra /\
  objectCount (analyzeFrameContext (vs ++ extra)) =
    (length vs + length extra)%nat /\
  0.75 <= averageConfidence (analyzeFrameContext (vs ++ extra)) <= 1.
Proof.
  intros Hne Hvs Hextra.
  assert (Hveh : Forall (fun d => isVehicle d = true) vs).
  { eapply Forall_impl; [|exact Hvs].
    intros d [Hd _]. apply vehicleClass_isVehicle, Hd. }
  assert (Hnop : Forall (fun d => isPerson d = false) vs).
  { eapply Forall_impl; [|exact Hvs].
    intros d [Hd _]. apply vehicleClass_not_person, Hd. }
  assert (Hper : Forall (fun d => isPerson d = true) extra).
  { eapply Forall_impl; [|exact Hextra].
    intros d [Hd _]. unfold isPerson. rewrite Hd. reflexivity. }
  assert (Hnov : Forall (fun d => isVehicle d = false) extra).
  { eapply Forall_impl; [|exact Hextra].
    intros d [Hd _]. unfold isVehicle. rewrite Hd. reflexivity. }
  assert (Hall : Forall (fun d => 0.75 <= det_confidence d <= 1) (vs ++ extra)).
  { apply Forall_app. split.
    - eapply Forall_impl; [|exact Hvs]. intros d [_ Hd]. lra.
    - eapply Forall_impl; [|exact Hextra]. intros d [_ Hd]. lra. }
  assert (Hne' : vs ++ extra <> []).
  { destruct vs; [congruence | discriminate]. }
  unfold analyzeFrameContext.
  cbn [vehicleCount personCount objectCount averageConfidence].
  rewrite !filter_app, (filter_keep _ _ Hveh), (filter_drop _ _ Hnop),
    (filter_keep _ _ Hper), (filter_drop _ _ Hnov), app_nil_r, app_nil_l.
  split; [reflexivity|]. split; [reflexivity|].
  split; [apply length_app|].
  set (ds := vs ++ extra) in *.
  assert (Hlt : Nat.ltb 0 (length ds) = true).
  { destruct ds; [congruence | reflexivity]. }
  rewrite Hlt, fold_left_sum, Rplus_0_l.
  rewrite <- (length_map det_confidence ds).
  assert (Hm : map det_confidence ds <> [])
    by (destruct ds; [congruence | discriminate]).
  apply (mean_bounds 0.75 1); [exact Hm|].
  apply Forall_map. exact Hall.
Qed.

(** X7. The summary of a generated frame: 2 to 6 vehicles, at most one
    person, nothing else, and an average confidence in [0.75, 1]. *)
Theorem processFrame_frameAnalysis (now : Time) (k : nat) :
  let r := fst (processFrame random now k) in
  (2 <= vehicleCount (frameAnalysis r) <= 6)%nat /\
  (personCount (frameAnalysis r) <= 1)%nat /\
  objectCount (frameAnalysis r) =
    (vehicleCount (frameAnalysis r) + personCount (frameAnalysis r))%nat /\
  objectCount (frameAnalysis r) = length (detections r) /\
  0.75 <= averageConfidence (frameAnalysis r) <= 1.
Proof.
  intros r. unfold r, processFrame.
  pose proof (vehicle_count_range k) as Hn.
  set (n := Z.to_nat (JS.floor (random k * 5) + 2)) in *.
  destruct (vehicleLoop_vehicles random random_range now n 0 (k + 1))
    as (Hl & _ & Hall).
  assert (Hne : fst (vehicleLoop random now n 0 (k + 1)) <> []).
  { intros E0. rewrite E0 in Hl. simpl in Hl. lia. }
  assert (Hshape : exists extra,
            fst (performObjectDetection random now k) =
              fst (vehicleLoop random now n 0 (k + 1)) ++ extra /\
            (length extra <= 1)%nat /\
            Forall (fun d => det_class d = "person"%string /\
                             0.75 <= det_confidence d <= 1) extra).
  { destruct (performObjectDetection_cases now k) as [[Hp E]|[Hp E]];
      fold n in E; rewrite E; cbn [fst].
    - eexists. split; [reflexivity|]. split; [simpl; lia|].
      constructor; [|constructor]. split; [reflexivity|].
      cbn [det_confidence newPerson].
      pose proof (random_range (k + 1 + 6 * n + 1)). lra.
    - exists []. rewrite app_nil_r. repeat split; [simpl; lia | constructor]. }
  destruct Hshape as (extra & E & Hlen & Hextra).
  destruct (performObjectDetection random now k) as [ds k1].
  cbn [fst] in E. subst ds.
  unfold analyzeDetections.
  destruct (detectAccidents random now _ k1) as [accs k2].
  cbn [fst frameResult frameAnalysis detections].
  destruct (generated_summary _ extra Hne Hall Hextra) as (Hv & Hp & Ho & Ha).
  rewrite Hv, Hp, Ho, length_app, Hl.
  repeat split; try lia; apply Ha.
Qed.

End Generated.

Import Scenario.

(** The boxes of a frame generated when every draw is 0. *)
Lemma performObjectDetection_boxes_witness :
  Forall box_in_range (fst (performObjectDetection fixed_draw 0%Z 0%nat)) /\
  (14 <= snd (performObjectDetection fixed_draw 0%Z 0%nat) <= 41)%nat.
Proof.
  destruct (performObjectDetection_boxes fixed_draw fixed_draw_range 0%Z 0%nat)
    as (Hb & _ & Hk).
  split; [exact Hb | exact Hk].
Defined.

(** The summary of a frame generated when every draw is 0. *)
Lemma processFrame_frameAnalysis_witness :
  (2 <= vehicleCount (frameAnalysis (fst (processFrame fixed_draw 0%Z 0%nat)))
   <= 6)%nat /\
  0.75 <= averageConfidence
            (frameAnalysis (fst (processFrame fixed_draw 0%Z 0%nat))) <= 1.
Proof.
  destruct (processFrame_frameAnalysis fixed_draw fixed_draw_range 0%Z 0%nat)
    as (Hv & _ & _ & _ & Ha).
  split; [exact Hv | exact Ha].
Defined.

End MLServiceMoreFacts.

(** * Properties of the frame source *)

Module VideoSourceFacts.

Import VideoSource Text.
Local Open Scope string_scope.

Lemma includes_occurs (needle s : string) :
  needle <> "" -> (includes needle s = true <-> occurs needle s).
Proof.
  intros Hne. unfold includes, occurs.
  destruct (String.index 0 needle s) as [m|] eqn:E.
  - split; [|reflexivity]. intros _. exists m.
    apply (index_correct1 _ _ _ _ E).
  - split; [discriminate|]. intros [m Hm]. exfalso.
    apply (index_correct3 0 m needle s E Hne); [lia | exact Hm].
Qed.

Lemma endsWith_suffix (suffix s : string) :
  endsWith suffix s = true <-> exists pre, s = pre ++ suffix.
Proof.
  split.
  - induction s as [|c rest IH]; simpl.
    + rewrite orb_false_r. intros H. apply String.eqb_eq in H.
      exists "". now subst.
    + intros H. apply orb_true_iff in H. destruct H as [H|H].
      * apply String.eqb_eq in H. exists "". now subst.
      * destruct (IH H) as [pre ->]. exists (String c pre). reflexivity.
  - intros [pre ->]. induction pre as [|c pre IH].
    + change ("" ++ suffix) with suffix.
      destruct suffix; cbn [endsWith]; rewrite String.eqb_refl; reflexivity.
    + change (String c pre ++ suffix) with (String c (pre ++ suffix)).
      cbn [endsWith]. rewrite IH. apply orb_true_r.
Qed.

Lemma matchesVideoFile_suffix (streamUrl : string) :
  matchesVideoFile streamUrl = true <->
  exists ext pre, In ext videoExtensions /\ lowercase streamUrl = pre ++ ext.
Proof.
  unfold matchesVideoFile. rewrite existsb_exists. split.
  - intros (ext & Hin & H). apply endsWith_suffix in H.
    destruct H as [pre Hpre]. now exists ext, pre.
  - intros (ext & pre & Hin & H). exists ext. split; [exact Hin|].
    apply endsWith_suffix. now exists pre.
Qed.

Lemma frameNumberAt_range (now : Time) :
  (0 <= now -> 0 <= frameNumberAt now < 3600)%Z.
Proof.
  intros H. unfold frameNumberAt.
  apply Z.rem_bound_pos; [|lia].
  apply Z.div_pos; lia.
Qed.

(** X8. The frame keeps the URL, and its number is the second within the
    hour: the whole seconds of the clock, remainder by 3600, which lies
    in [0, 3600).  The source is decided in this order: youtube
    when the URL contains "youtube.com" or "youtu.be"; else hls when it
    contains "m3u8" or "hls"; else file when it ends, ASCII case
    ignored, in .mp4, .webm, .avi or .mov; else unknown. *)
Theorem extractFrameFromStream_source (streamUrl : string) (now : Time) :
  let f := extractFrameFromStream streamUrl now in
  let youtube := occurs "youtube.com" streamUrl \/ occurs "youtu.be" streamUrl in
  let hls := occurs "m3u8" streamUrl \/ occurs "hls" streamUrl in
  let file := exists ext pre, In ext videoExtensions /\
                              lowercase streamUrl = pre ++ ext in
  frame_url f = streamUrl /\
  frameNumber f = Z.rem (now / 1000) 3600 /\
  ((0 <= now)%Z -> (0 <= frameNumber f < 3600)%Z) /\
  (source f = "youtube" <-> youtube) /\
  (source f = "hls" <-> ~ youtube /\ hls) /\
  (source f = "file" <-> ~ youtube /\ ~ hls /\ file) /\
  (source f = "unknown" <-> ~ youtube /\ ~ hls /\ ~ file).
Proof.
  intros f youtube hls file.
  assert (Hy : includes "youtube.com" streamUrl || includes "youtu.be" streamUrl
               = true <-> youtube).
  { unfold youtube. rewrite orb_true_iff, !includes_occurs by discriminate.
    reflexivity. }
  assert (Hh : includes "m3u8" streamUrl || includes "hls" streamUrl
               = true <-> hls).
  { unfold hls. rewrite orb_true_iff, !includes_occurs by discriminate.
    reflexivity. }
  pose proof (matchesVideoFile_suffix streamUrl) as Hf. fold file in Hf.
  unfold f, extractFrameFromStream.
  destruct (includes "youtube.com" streamUrl || includes "youtu.be" streamUrl).
  - assert youtube by (apply Hy; reflexivity).
    cbn [source frame_url frameNumber].
    split; [reflexivity|]. split; [reflexivity|].
    split; [apply frameNumberAt_range|].
    repeat split; try discriminate; tauto.
  - assert (~ youtube) by (intros Y; apply Hy in Y; discriminate).
    destruct (includes "m3u8" streamUrl || includes "hls" streamUrl).
    + assert hls by (apply Hh; reflexivity).
      cbn [source frame_url frameNumber].
      split; [reflexivity|]. split; [reflexivity|].
      split; [apply frameNumberAt_range|].
      repeat split; try discriminate; tauto.
    + assert (~ hls) by (intros Y; apply Hh in Y; discriminate).
      destruct (matchesVideoFile streamUrl).
      * assert file by (apply Hf; reflexivity).
        cbn [source frame_url frameNumber].
        split; [reflexivity|]. split; [reflexivity|].
        split; [apply frameNumberAt_range|].
        repeat split; try discriminate; tauto.
      * assert (~ file) by (intros Y; apply Hf in Y; discriminate).
        cbn [source frame_url frameNumber].
        split; [reflexivity|]. split; [reflexivity|].
        split; [apply frameNumberAt_range|].
        repeat split; try discriminate; tauto.
Qed.

End VideoSourceFacts.

(** * Further properties of the store *)

Module TableFacts.

Import Supabase SupabaseFacts Integrity.

Section Table.

Variable Row : Type.
Variable row_id : Row -> uuid.

Lemma select_none (id : uuid) (table : list Row) :
  select_eq row_id id table = [] <-> existsb (eq_id row_id id) table = false.
Proof.
  induction table as [|a table IH]; simpl; [tauto|].
  destruct (eq_id row_id id a); simpl; [split; discriminate | exact IH].
Qed.

Lemma select_some (id : uuid) (table : list Row) (r : Row) :
  select_eq row_id id table = [r] -> existsb (eq_id row_id id) table = true.
Proof.
  intros H. destruct (existsb (eq_id row_id id) table) eqn:E; [reflexivity|].
  apply select_none in E. congruence.
Qed.

(** An update of a key no row has changes nothing. *)
Lemma update_none (fields : Row -> Row) (id : uuid) (table : list Row) :
  select_eq row_id id table = [] -> update_eq row_id fields id table = table.
Proof.
  induction table as [|a table IH]; simpl; [reflexivity|].
  destruct (eq_id row_id id a); [discriminate|].
  intros H. now rewrite IH.
Qed.

Lemma select_append_new (id : uuid) (table : list Row) (r : Row) :
  row_id r = id ->
  ~ In id (map row_id table) ->
  select_eq row_id id (table ++ [r]) = [r].
Proof.
  intros Hid Hnew. unfold select_eq. rewrite filter_app.
  assert (E : filter (eq_id row_id id) table = []).
  { apply select_none. apply not_true_is_false. intros H.
    apply existsb_exists in H. destruct H as (a & Ha & Hida).
    apply Nat.eqb_eq in Hida. apply Hnew. rewrite <- Hida. apply in_map, Ha. }
  rewrite E. simpl. unfold eq_id. rewrite Hid, Nat.eqb_refl. reflexivity.
Qed.

Lemma select_append_other (id : uuid) (table : list Row) (r : Row) :
  row_id r <> id ->
  select_eq row_id id (table ++ [r]) = select_eq row_id id table.
Proof.
  intros Hid. unfold select_eq. rewrite filter_app. simpl.
  unfold eq_id at 2. destruct (Nat.eqb_spec (row_id r) id); [congruence|].
  apply app_nil_r.
Qed.

End Table.

Lemma fresh_not_in {Row : Type} (row_id : Row -> uuid) (n : uuid)
    (table : list Row) :
  Forall (fun r => row_id r < n) table -> ~ In n (map row_id table).
Proof.
  intros Hall Hin. apply in_map_iff in Hin. destruct Hin as (r & Hr & Hin).
  rewrite Forall_forall in Hall. specialize (Hall r Hin). lia.
Qed.

End TableFacts.

(** * Integrity of the stored rows *)

Module IntegrityFacts.

Import Supabase SupabaseFacts Integrity TableFacts Alerts.

Lemma existsb_update {Row : Type} (row_id : Row -> uuid)
    (fields : Row -> Row) (id id' : uuid) (table : list Row) :
  (forall r, row_id (fields r) = row_id r) ->
  existsb (eq_id row_id id') (update_eq row_id fields id table) =
    existsb (eq_id row_id id') table.
Proof.
  intros Hid. induction table as [|r table IH]; simpl; [reflexivity|].
  rewrite IH. f_equal.
  destruct (eq_id row_id id r); [|reflexivity].
  unfold eq_id. now rewrite Hid.
Qed.

End IntegrityFacts.

Module RoutesConsistent.

Import Supabase SupabaseFacts Integrity TableFacts IntegrityFacts Alerts.
Import Scenario Scenario2.

Lemma world0_consistent : consistent world0.
Proof.
  unfold consistent, keys_ok, references_ok, checks_ok, timers_ok. cbn.
  repeat split; repeat constructor; simpl; try tauto; lia.
Qed.

Lemma world1_consistent : consistent world1.
Proof.
  unfold consistent, keys_ok, references_ok, checks_ok, timers_ok.
  change (streams world1)
    with [PendingAlerts.alert_fields awaiting cam1].
  change (pending_alerts world1) with [approved1].
  change (alerts world1) with [PendingAlerts.alertData awaiting 1001 11].
  change (next_uuid world1) with 12.
  change (intervals world1) with [timer0].
  change (next_handle world1) with 1.
  unfold stream_exists.
  change (streams world1)
    with [PendingAlerts.alert_fields awaiting cam1].
  cbn [map stream_id pa_id alert_id handle PendingAlerts.alert_fields
       approved1 PendingAlerts.approve_fields PendingAlerts.alertData
       awaiting cam1 timer0 pa_stream_id alert_stream_id alert_severity
       existsb eq_id].
  repeat split; repeat constructor; simpl; try tauto; lia.
Qed.

End RoutesConsistent.

(** * Further properties of the routes *)

Module RoutesFacts.

Import Supabase SupabaseFacts Integrity TableFacts Alerts.
Import PendingAlertsFacts StreamsFacts Scenario Scenario2.

Lemma with_streams_same (w : World) : with_streams (streams w) w = w.
Proof. destruct w; reflexivity. Qed.

Lemma with_pending_alerts_same (w : World) :
  with_pending_alerts (pending_alerts w) w = w.
Proof. destruct w; reflexivity. Qed.

Lemma with_alerts_same (w : World) : with_alerts (alerts w) w = w.
Proof. destruct w; reflexivity. Qed.

(** X10. A key that no row has: the routes that address one row answer 500,
    never 404, and leave the state as it is. *)
Theorem unknown_key_server_error (w : World) (id : uuid)
    (reason by_ : option string) (t1 t2 : Time) :
  select_eq pa_id id (pending_alerts w) = [] ->
  select_eq stream_id id (streams w) = [] ->
  select_eq alert_id id (alerts w) = [] ->
  PendingAlerts.approve id by_ t1 t2 w =
    (ErrorJson 500 "Failed to approve pending alert", w) /\
  PendingAlerts.reject id reason by_ t1 w =
    (ErrorJson 500 "Failed to reject pending alert", w) /\
  PendingAlertsIntake.get id w = Refused 500 "Failed to fetch pending alert" /\
  Streams.start id t1 w = (ErrorJson 500 "Failed to start stream monitoring", w) /\
  Streams.stop id w = (ErrorJson 500 "Failed to stop stream monitoring", w) /\
  StreamsRemoval.get id w = Refused 500 "Failed to fetch stream" /\
  Alerts.get id w = Refused 500 "Failed to fetch alert" /\
  send id t1 w =
    {| reply := Refused 500 "Failed to send alert"; world := w;
       broadcast := [] |} /\
  acknowledge id t1 w =
    {| reply := Refused 500 "Failed to acknowledge alert"; world := w;
       broadcast := [] |}.
Proof.
  intros Hp Hs Ha.
  repeat split.
  - unfold PendingAlerts.approve. rewrite Hp. reflexivity.
  - unfold PendingAlerts.reject.
    rewrite (update_none _ pa_id _ id _ Hp), with_pending_alerts_same, Hp.
    reflexivity.
  - unfold PendingAlertsIntake.get. rewrite Hp. reflexivity.
  - unfold Streams.start. rewrite Hs. reflexivity.
  - unfold Streams.stop.
    rewrite (update_none _ stream_id _ id _ Hs), with_streams_same, Hs.
    reflexivity.
  - unfold StreamsRemoval.get. rewrite Hs. reflexivity.
  - unfold Alerts.get. rewrite Ha. reflexivity.
  - unfold send, update_alert.
    rewrite (update_none _ alert_id _ id _ Ha), with_alerts_same, Ha.
    reflexivity.
  - unfold acknowledge, update_alert.
    rewrite (update_none _ alert_id _ id _ Ha), with_alerts_same, Ha.
    reflexivity.
Qed.

Lemma unknown_key_server_error_witness :
  PendingAlerts.approve 99 operator1 1000 1001 world0 =
    (ErrorJson 500 "Failed to approve pending alert", world0) /\
  Streams.stop 99 world0 =
    (ErrorJson 500 "Failed to stop stream monitoring", world0).
Proof.
  destruct (unknown_key_server_error world0 99 None operator1 1000 1001
              eq_refl eq_refl eq_refl) as (H1 & _ & _ & _ & H2 & _).
  split; [exact H1 | exact H2].
Defined.

(** X11. When the severity of the payload is not one the alerts table
    accepts, approve answers 500 after it has written the approval: the
    pending alert is left approved, with no alert, no change of the
    stream and nothing emitted. *)
Theorem approve_fails_after_update (w : World) (id : uuid) (p : PendingAlert)
    (by_ : option string) (t1 t2 : Time) :
  select_eq pa_id id (pending_alerts w) = [p] ->
  valid_severity (JS.or_string (dd_severity (pa_detection_data p)) "high")
    = false ->
  fst (PendingAlerts.approve id by_ t1 t2 w) =
    ErrorJson 500 "Failed to approve pending alert" /\
  select_eq pa_id id (pending_alerts (snd (PendingAlerts.approve id by_ t1 t2 w)))
    = [PendingAlerts.approve_fields by_ t1 p] /\
  pa_status (PendingAlerts.approve_fields by_ t1 p) = approved /\
  alerts (snd (PendingAlerts.approve id by_ t1 t2 w)) = alerts w /\
  streams (snd (PendingAlerts.approve id by_ t1 t2 w)) = streams w /\
  emitted (snd (PendingAlerts.approve id by_ t1 t2 w)) = emitted w.
Proof.
  intros Hsel Hsev.
  unfold PendingAlerts.approve. rewrite Hsel.
  cbn [single resolved error data].
  unfold insert_alert.
  cbn [alert_severity alert_stream_id PendingAlerts.alertData].
  rewrite Hsev. cbn [andb fst snd failed error].
  unfold with_pending_alerts. cbn [pending_alerts alerts streams emitted].
  rewrite (select_update_same _ pa_id _
             (PendingAlertsFacts.approve_fields_id by_ t1)), Hsel.
  repeat split.
Qed.

Lemma approve_fails_after_update_witness :
  fst (PendingAlerts.approve 11 operator1 5000 5001 world3) =
    ErrorJson 500 "Failed to approve pending alert" /\
  map pa_status (pending_alerts world3) = [pending; pending] /\
  map pa_status
    (pending_alerts (snd (PendingAlerts.approve 11 operator1 5000 5001 world3)))
    = [pending; approved] /\
  alerts (snd (PendingAlerts.approve 11 operator1 5000 5001 world3)) = [].
Proof.
  destruct (approve_fails_after_update world3 11
              {| pa_id := 11; pa_stream_id := 1;
                 pa_detection_data := odd_payload;
                 pa_frame_timestamp := 4000;
                 pa_confidence :=
                   PendingAlertsIntake.or_confidence (Some 0%R);
                 pa_status := pending; approved_by := None;
                 approved_at := None; rejection_reason := None |}
              operator1 5000 5001 eq_refl eq_refl)
    as (H1 & _ & _ & H2 & _).
  split; [exact H1|]. split; [reflexivity|]. split; [reflexivity|exact H2].
Defined.

Lemma or_confidence_cases (c : option R) :
  (c = None \/ c = Some 0%R -> PendingAlertsIntake.or_confidence c = 0.75%R) /\
  (forall v, c = Some v -> v <> 0%R -> PendingAlertsIntake.or_confidence c = v).
Proof.
  unfold PendingAlertsIntake.or_confidence. split.
  - intros [->| ->]; [reflexivity|].
    destruct (Req_dec_T 0 0); [reflexivity | congruence].
  - intros v -> Hv. destruct (Req_dec_T v 0); [congruence | reflexivity].
Qed.

Lemma create_found (w : World) (body : PendingAlertsIntake.CreateBody)
    (now : Time) (sid : uuid) (dd : DetectionData) :
  PendingAlertsIntake.body_stream_id body = Some sid ->
  PendingAlertsIntake.body_detection_data body = Some dd ->
  PendingAlertsIntake.create body now w =
    if stream_exists sid w then
      {| reply := Sent 201 (Rows.created_row body sid dd now (next_uuid w));
         world :=
           {| streams := streams w;
              pending_alerts :=
                pending_alerts w
                ++ [Rows.created_row body sid dd now (next_uuid w)];
              alerts := alerts w; next_uuid := S (next_uuid w);
              emitted := emitted w; intervals := intervals w;
              next_handle := next_handle w |};
         broadcast :=
           [pending_alert_created
              (Rows.created_row body sid dd now (next_uuid w))] |}
    else
      {| reply := Refused 500 "Failed to create pending alert";
         world := w; broadcast := [] |}.
Proof.
  intros Es Ed. unfold PendingAlertsIntake.create. rewrite Es, Ed.
  unfold insert_pending_alert. cbn [pa_stream_id].
  destruct (stream_exists sid w); reflexivity.
Qed.

(** X12. The create route.  Without a stream id or without detection data it
    answers 400, and for a stream that does not exist 500, and writes
    nothing.  Otherwise it answers 201 with the new row: status pending,
    the next key, the confidence given, or 0.75 when none or 0 was
    given; the row is appended and nothing else changes, and the row can
    be fetched by its key while every other key fetches what it did. *)
Theorem create_stores_pending (w : World)
    (body : PendingAlertsIntake.CreateBody) (now : Time) :
  consistent w ->
  let o := PendingAlertsIntake.create body now w in
  (PendingAlertsIntake.body_stream_id body = None \/
   PendingAlertsIntake.body_detection_data body = None ->
   o = {| reply := Refused 400 "Stream ID and detection data are required";
          world := w; broadcast := [] |}) /\
  (forall sid dd,
     PendingAlertsIntake.body_stream_id body = Some sid ->
     PendingAlertsIntake.body_detection_data body = Some dd ->
     let row := Rows.created_row body sid dd now (next_uuid w) in
     (stream_exists sid w = false ->
      o = {| reply := Refused 500 "Failed to create pending alert";
             world := w; broadcast := [] |}) /\
     (stream_exists sid w = true ->
      reply o = Sent 201 row /\
      broadcast o = [pending_alert_created row] /\
      pending_alerts (world o) = pending_alerts w ++ [row] /\
      streams (world o) = streams w /\
      alerts (world o) = alerts w /\
      pa_status row = pending /\
      pa_confidence row =
        PendingAlertsIntake.or_confidence
          (PendingAlertsIntake.body_confidence body) /\
      PendingAlertsIntake.get (next_uuid w) (world o) = Sent 200 row /\
      (forall id, id <> next_uuid w ->
         PendingAlertsIntake.get id (world o) = PendingAlertsIntake.get id w))).
Proof.
  intros Hc o. unfold o. split.
  - unfold PendingAlertsIntake.create. intros [E|E]; rewrite E; [reflexivity|].
    destruct (PendingAlertsIntake.body_stream_id body); reflexivity.
  - intros sid dd Es Ed.
    fold (PendingAlertsIntake.create body now w).
    rewrite (create_found w body now sid dd Es Ed).
    set (row := Rows.created_row body sid dd now (next_uuid w)).
    split; intros Hex; rewrite Hex; [reflexivity|].
    cbn [reply broadcast world pending_alerts streams alerts].
    destruct Hc as ((_ & _ & _ & K4 & _) & _).
    repeat split.
    + unfold PendingAlertsIntake.get. cbn [pending_alerts].
      rewrite (select_append_new _ pa_id (next_uuid w) _ row eq_refl
                 (fresh_not_in pa_id _ _ K4)).
      reflexivity.
    + intros id Hne. unfold PendingAlertsIntake.get. cbn [pending_alerts].
      rewrite (select_append_other _ pa_id id _ row); [reflexivity|].
      cbn. congruence.
Qed.

Lemma create_stores_pending_witness :
  reply (PendingAlertsIntake.create odd_body 4000 world0) =
    Sent 201 (Rows.created_row odd_body 1 odd_payload 4000 11) /\
  PendingAlertsIntake.get 11 world3 =
    Sent 200 (Rows.created_row odd_body 1 odd_payload 4000 11) /\
  pa_confidence (Rows.created_row odd_body 1 odd_payload 4000 11) = 0.75%R.
Proof.
  destruct (create_stores_pending world0 odd_body 4000
              RoutesConsistent.world0_consistent) as [_ H].
  destruct (H 1 odd_payload eq_refl eq_refl) as [_ Hok].
  destruct (Hok eq_refl) as (H1 & _ & _ & _ & _ & _ & _ & H2 & _).
  split; [exact H1|]. split; [exact H2|].
  exact (proj1 (or_confidence_cases (Some 0%R)) (or_intror eq_refl)).
Defined.

(** The tick of a timer whose stream is found and monitored. *)
Lemma tick_processing (i : Interval) (result : MLService.DetectionResult)
    (now : Time) (w : World) (s : Stream) :
  select_eq stream_id (stream_id (interval_stream i)) (streams w) = [s] ->
  is_processing s = true ->
  Streams.tick i result now w =
    if MLService.accidentDetected result
    then Streams.handleAccidentDetection (interval_stream i) result
           (Rows.processed i result now w)
    else Rows.processed i result now w.
Proof.
  intros Hsel Hproc. unfold Streams.tick. rewrite Hsel.
  cbn [single resolved error data]. rewrite Hproc. reflexivity.
Qed.

(** The tick of a timer whose stream is gone or not monitored. *)
Lemma tick_idle (i : Interval) (result : MLService.DetectionResult)
    (now : Time) (w : World) :
  select_eq stream_id (stream_id (interval_stream i)) (streams w) = [] \/
  (exists s,
     select_eq stream_id (stream_id (interval_stream i)) (streams w) = [s] /\
     is_processing s = false) ->
  Streams.tick i result now w = clearInterval (handle i) w.
Proof.
  intros [Hsel|(s & Hsel & Hproc)]; unfold Streams.tick; rewrite Hsel;
    cbn [single resolved failed error data]; [reflexivity|].
  rewrite Hproc. reflexivity.
Qed.

Lemma handleAccidentDetection_found (stream : Stream)
    (result : MLService.DetectionResult) (w : World) :
  stream_exists (stream_id stream) w = true ->
  Streams.handleAccidentDetection stream result w =
    {| streams := streams w;
       pending_alerts :=
         pending_alerts w ++ [Rows.detected_row stream result (next_uuid w)];
       alerts := alerts w;
       next_uuid := S (next_uuid w);
       emitted :=
         emitted w
         ++ [accident_detected_pending
               (Some (Rows.detected_row stream result (next_uuid w)))
               stream result];
       intervals := intervals w;
       next_handle := next_handle w |}.
Proof.
  intros Hex. unfold Streams.handleAccidentDetection, insert_pending_alert.
  cbn [pa_stream_id]. rewrite Hex. reflexivity.
Qed.

Lemma handleAccidentDetection_timers (stream : Stream)
    (result : MLService.DetectionResult) (w : World) :
  intervals (Streams.handleAccidentDetection stream result w) = intervals w /\
  alerts (Streams.handleAccidentDetection stream result w) = alerts w /\
  streams (Streams.handleAccidentDetection stream result w) = streams w.
Proof.
  unfold Streams.handleAccidentDetection, insert_pending_alert.
  cbn [pa_stream_id].
  destruct (stream_exists (stream_id stream) w); repeat split.
Qed.

Lemma processed_exists (i : Interval) (result : MLService.DetectionResult)
    (now : Time) (w : World) (s : Stream) :
  select_eq stream_id (stream_id (interval_stream i)) (streams w) = [s] ->
  stream_exists (stream_id (interval_stream i)) (Rows.processed i result now w)
    = true.
Proof.
  intros Hsel. unfold stream_exists, Rows.processed, emit, with_streams.
  cbn [streams].
  rewrite (IntegrityFacts.existsb_update stream_id
             (Streams.processed_fields now) _ _ _ (fun _ => eq_refl)).
  apply (select_some _ stream_id _ _ s Hsel).
Qed.

(** X13. A tick on a monitored stream writes the time of processing and
    emits the result to the room of the stream.  It never changes the
    alerts, the timers, or the status, the monitoring flag and the
    accident count of the stream.  Without an accident the pending
    alerts are as before; with one, exactly one pending alert is
    appended, in status pending, with the confidence of the result, and
    announced. *)
Theorem tick_effects (i : Interval) (result : MLService.DetectionResult)
    (now : Time) (w : World) (s : Stream) :
  select_eq stream_id (stream_id (interval_stream i)) (streams w) = [s] ->
  is_processing s = true ->
  let sid := stream_id (interval_stream i) in
  let w' := Streams.tick i result now w in
  let row := Rows.detected_row (interval_stream i) result (next_uuid w) in
  streams w' = update_eq stream_id (Streams.processed_fields now) sid (streams w) /\
  select_eq stream_id sid (streams w') = [Streams.processed_fields now s] /\
  last_processed (Streams.processed_fields now s) = Some now /\
  stream_status (Streams.processed_fields now s) = stream_status s /\
  is_processing (Streams.processed_fields now s) = true /\
  accident_count (Streams.processed_fields now s) = accident_count s /\
  alerts w' = alerts w /\
  intervals w' = intervals w /\
  (MLService.accidentDetected result = false ->
   pending_alerts w' = pending_alerts w /\
   emitted w' = emitted w ++ [detection_result sid sid result]) /\
  (MLService.accidentDetected result = true ->
   pending_alerts w' = pending_alerts w ++ [row] /\
   pa_status row = pending /\
   pa_confidence row = MLService.confidence result /\
   emitted w' =
     emitted w ++ [detection_result sid sid result;
                   accident_detected_pending (Some row) (interval_stream i)
                     result]).
Proof.
  intros Hsel Hproc sid w' row. unfold w'.
  rewrite (tick_processing i result now w s Hsel Hproc).
  pose proof (processed_exists i result now w s Hsel) as Hex.
  assert (Hs : select_eq stream_id sid (streams (Rows.processed i result now w))
               = [Streams.processed_fields now s]).
  { unfold Rows.processed, emit, with_streams. cbn [streams].
    unfold sid.
    rewrite (select_update_same _ stream_id (Streams.processed_fields now)
               (fun _ => eq_refl)), Hsel.
    reflexivity. }
  destruct (MLService.accidentDetected result).
  - rewrite (handleAccidentDetection_found _ result _ Hex).
    cbn [streams pending_alerts alerts intervals emitted].
    unfold Rows.processed, emit, with_streams in *.
    cbn [streams pending_alerts alerts intervals emitted next_uuid] in *.
    fold row. rewrite <- app_assoc.
    repeat split; trivial; discriminate.
  - unfold Rows.processed, emit, with_streams in *.
    cbn [streams pending_alerts alerts intervals emitted next_uuid] in *.
    repeat split; trivial; discriminate.
Qed.

Lemma tick_effects_witness :
  length (pending_alerts (Streams.tick timer0 alarming 2500 world0)) = 2 /\
  alerts (Streams.tick timer0 alarming 2500 world0) = alerts world0 /\
  intervals (Streams.tick timer0 alarming 2500 world0) = intervals world0.
Proof.
  destruct (tick_effects timer0 alarming 2500 world0 cam1 eq_refl eq_refl)
    as (_ & _ & _ & _ & _ & _ & Ha & Hi & _ & Hacc).
  destruct (Hacc eq_refl) as (Hp & _).
  split; [rewrite Hp; reflexivity|]. split; [exact Ha | exact Hi].
Defined.

Lemma detectionData_severity (stream : Stream)
    (result : MLService.DetectionResult) :
  exists sev,
    dd_severity (Streams.detectionData stream result) = Some sev /\
    In sev ["critical"; "high"; "medium"]%string /\
    JS.or_string (Some sev) "high" = sev /\
    valid_severity sev = true.
Proof.
  unfold Streams.detectionData. cbn [dd_severity].
  destruct (Rlt_dec 0.85 (MLService.confidence result));
    [|destruct (Rlt_dec 0.75 (MLService.confidence result))];
    eexists; (split; [reflexivity|]); simpl; tauto.
Qed.

(** X14. An alert the polling loop raises can always be approved.  After a
    tick that detected an accident on a monitored stream, the pending
    alert has the next key; approving it succeeds and inserts an alert
    of severity critical, high or medium, with the confidence of the
    result and the location held by the timer's copy of the stream. *)
Theorem loop_alert_approvable (i : Interval)
    (result : MLService.DetectionResult) (now : Time) (w : World) (s : Stream)
    (by_ : option string) (t1 t2 : Time) :
  consistent w ->
  select_eq stream_id (stream_id (interval_stream i)) (streams w) = [s] ->
  is_processing s = true ->
  MLService.accidentDetected result = true ->
  let w' := Streams.tick i result now w in
  let id := next_uuid w in
  let row := Rows.detected_row (interval_stream i) result id in
  let final := PendingAlerts.alertData row t2 (S id) in
  select_eq pa_id id (pending_alerts w') = [row] /\
  fst (PendingAlerts.approve id by_ t1 t2 w') =
    Json {| PendingAlerts.approve_message := "Alert approved and created";
            PendingAlerts.pendingAlert := row;
            PendingAlerts.finalAlert := Some final |} /\
  alerts (snd (PendingAlerts.approve id by_ t1 t2 w')) = alerts w ++ [final] /\
  In (alert_severity final) ["critical"; "high"; "medium"]%string /\
  alert_confidence final = MLService.confidence result /\
  alert_location final =
    JS.or_string (Some (stream_location (interval_stream i))) "Unknown" /\
  alert_stream_id final = stream_id s.
Proof.
  intros Hc Hsel Hproc Hacc w' id row final.
  pose proof (processed_exists i result now w s Hsel) as Hex.
  assert (Hw : w' =
    {| streams := update_eq stream_id (Streams.processed_fields now)
                    (stream_id (interval_stream i)) (streams w);
       pending_alerts := pending_alerts w ++ [row];
       alerts := alerts w;
       next_uuid := S id;
       emitted :=
         (emitted w ++ [detection_result (stream_id (interval_stream i))
                          (stream_id (interval_stream i)) result])
         ++ [accident_detected_pending (Some row) (interval_stream i) result];
       intervals := intervals w;
       next_handle := next_handle w |}).
  { unfold w'. rewrite (tick_processing i result now w s Hsel Hproc), Hacc.
    rewrite (handleAccidentDetection_found _ result _ Hex). reflexivity. }
  destruct Hc as ((_ & _ & _ & K4 & _) & _).
  assert (Hrow : select_eq pa_id id (pending_alerts w') = [row]).
  { rewrite Hw. cbn [pending_alerts].
    apply select_append_new; [reflexivity|].
    apply (fresh_not_in pa_id _ _ K4). }
  destruct (detectionData_severity (interval_stream i) result)
    as (sev & Esev & Hin & Hor & Hvalid).
  assert (Hsev : valid_severity
                   (JS.or_string (dd_severity (pa_detection_data row)) "high")
                 = true).
  { cbn [row Rows.detected_row pa_detection_data]. rewrite Esev, Hor.
    exact Hvalid. }
  assert (Hstream : stream_exists (pa_stream_id row) w' = true).
  { rewrite Hw. unfold stream_exists in *. exact Hex. }
  rewrite (approve_found w' id row by_ t1 t2 Hrow Hsev Hstream).
  cbn [fst snd alerts].
  replace (next_uuid w') with (S id) by (rewrite Hw; reflexivity).
  replace (alerts w') with (alerts w) by (rewrite Hw; reflexivity).
  fold final.
  split; [exact Hrow|]. split; [reflexivity|]. split; [reflexivity|].
  split.
  { unfold final. cbn [alert_severity PendingAlerts.alertData].
    cbn [row Rows.detected_row pa_detection_data]. rewrite Esev, Hor.
    exact Hin. }
  split; [reflexivity|]. split; [reflexivity|].
  cbn. symmetry. apply (selected_id stream_id _ _ s Hsel).
Qed.

Lemma loop_alert_approvable_witness :
  fst (PendingAlerts.approve 11 operator1 3000 3001
         (Streams.tick timer0 alarming 2500 world0)) =
    Json {| PendingAlerts.approve_message := "Alert approved and created";
            PendingAlerts.pendingAlert := Rows.detected_row cam1 alarming 11;
            PendingAlerts.finalAlert :=
              Some (PendingAlerts.alertData
                      (Rows.detected_row cam1 alarming 11) 3001 12) |}.
Proof.
  destruct (loop_alert_approvable timer0 alarming 2500 world0 cam1 operator1
              3000 3001 RoutesConsistent.world0_consistent
              eq_refl eq_refl eq_refl) as (_ & H & _).
  exact H.
Defined.

Lemma stop_found (w : World) (id : uuid) (s : Stream) :
  select_eq stream_id id (streams w) = [s] ->
  Streams.stop id w =
    (Json {| Streams.stop_message := "Stream monitoring stopped";
             Streams.stopped_stream := Streams.stop_fields s |},
     {| streams := update_eq stream_id Streams.stop_fields id (streams w);
        pending_alerts := pending_alerts w;
        alerts := alerts w;
        next_uuid := next_uuid w;
        emitted := emitted w ++ [stream_stopped (Streams.stop_fields s)];
        intervals := intervals w;
        next_handle := next_handle w |}).
Proof.
  intros Hsel. unfold Streams.stop, with_streams, emit. cbn [streams].
  rewrite !(select_update_same _ stream_id Streams.stop_fields
              (fun _ => eq_refl)), Hsel.
  reflexivity.
Qed.

Lemma clearInterval_removes (i : Interval) (w : World) :
  ~ In i (intervals (clearInterval (handle i) w)).
Proof.
  unfold clearInterval. cbn [intervals]. intros Hin.
  apply filter_In in Hin. destruct Hin as [_ H].
  rewrite Nat.eqb_refl in H. discriminate.
Qed.

(** X15. Stopping is cooperative.  The stop route writes the stream as
    inactive and not monitored and leaves every timer set; the next tick
    of a timer of that stream clears that timer and does nothing else:
    no table is written and nothing is emitted. *)
Theorem stopped_loop_ends (w : World) (id : uuid) (s : Stream) (i : Interval)
    (result : MLService.DetectionResult) (now : Time) :
  select_eq stream_id id (streams w) = [s] ->
  stream_id (interval_stream i) = id ->
  let w1 := snd (Streams.stop id w) in
  select_eq stream_id id (streams w1) = [Streams.stop_fields s] /\
  stream_status (Streams.stop_fields s) = inactive /\
  is_processing (Streams.stop_fields s) = false /\
  intervals w1 = intervals w /\
  Streams.tick i result now w1 = clearInterval (handle i) w1 /\
  ~ In i (intervals (Streams.tick i result now w1)) /\
  streams (Streams.tick i result now w1) = streams w1 /\
  pending_alerts (Streams.tick i result now w1) = pending_alerts w /\
  alerts (Streams.tick i result now w1) = alerts w /\
  emitted (Streams.tick i result now w1) = emitted w1.
Proof.
  intros Hsel Hid w1.
  assert (Hs1 : select_eq stream_id id (streams w1) = [Streams.stop_fields s]).
  { unfold w1. rewrite (stop_found w id s Hsel). cbn [snd streams].
    rewrite (select_update_same _ stream_id Streams.stop_fields
               (fun _ => eq_refl)), Hsel.
    reflexivity. }
  assert (Htick : Streams.tick i result now w1 = clearInterval (handle i) w1).
  { apply tick_idle. right. exists (Streams.stop_fields s).
    rewrite Hid. split; [exact Hs1 | reflexivity]. }
  rewrite Htick.
  split; [exact Hs1|]. split; [reflexivity|]. split; [reflexivity|].
  split; [unfold w1; rewrite (stop_found w id s Hsel); reflexivity|].
  split; [reflexivity|]. split; [apply clearInterval_removes|].
  unfold w1. rewrite (stop_found w id s Hsel). repeat split.
Qed.

Lemma stopped_loop_ends_witness :
  intervals world4 = [timer0] /\
  intervals (Streams.tick timer0 alarming 2500 world4) = [] /\
  pending_alerts (Streams.tick timer0 alarming 2500 world4) =
    pending_alerts world0.
Proof.
  destruct (stopped_loop_ends world0 1 cam1 timer0 alarming 2500
              eq_refl eq_refl)
    as (_ & _ & _ & _ & Htick & _ & _ & Hp & _).
  split; [reflexivity|]. split; [|exact Hp].
  fold world4 in Htick. rewrite Htick. reflexivity.
Defined.

Lemma update_twice {Row : Type} (row_id : Row -> uuid)
    (fields : Row -> Row) (id : uuid) (table : list Row) :
  (forall r, row_id (fields r) = row_id r) ->
  (forall r, fields (fields r) = fields r) ->
  update_eq row_id fields id (update_eq row_id fields id table) =
    update_eq row_id fields id table.
Proof.
  intros Hid Hidem. unfold update_eq. rewrite map_map. apply map_ext.
  intros r. destruct (eq_id row_id id r) eqn:E; [|now rewrite E].
  unfold eq_id in *. rewrite Hid, E. apply Hidem.
Qed.

(** X16. Stopping twice is stopping once: the second stop gives the same
    answer and leaves the same streams, pending alerts, alerts and
    timers; it only emits the stop event again.  A stop keeps the time
    of last processing and the accident count of the stream. *)
Theorem stop_idempotent (w : World) (id : uuid) (s : Stream) :
  select_eq stream_id id (streams w) = [s] ->
  let r1 := Streams.stop id w in
  let r2 := Streams.stop id (snd r1) in
  fst r2 = fst r1 /\
  streams (snd r2) = streams (snd r1) /\
  pending_alerts (snd r2) = pending_alerts w /\
  alerts (snd r2) = alerts w /\
  intervals (snd r2) = intervals w /\
  emitted (snd r2) =
    emitted (snd r1) ++ [stream_stopped (Streams.stop_fields s)] /\
  last_processed (Streams.stop_fields s) = last_processed s /\
  accident_count (Streams.stop_fields s) = accident_count s.
Proof.
  intros Hsel r1 r2. unfold r2, r1.
  pose proof (stop_found w id s Hsel) as E1.
  assert (Hs1 : select_eq stream_id id (streams (snd (Streams.stop id w)))
                = [Streams.stop_fields s]).
  { rewrite E1. cbn [snd streams].
    rewrite (select_update_same _ stream_id Streams.stop_fields
               (fun _ => eq_refl)), Hsel.
    reflexivity. }
  rewrite (stop_found _ id (Streams.stop_fields s) Hs1).
  cbn [fst snd streams pending_alerts alerts intervals emitted].
  rewrite E1.
  cbn [fst snd streams pending_alerts alerts intervals emitted].
  rewrite (update_twice stream_id Streams.stop_fields id (streams w)
             (fun _ => eq_refl) (fun _ => eq_refl)).
  repeat split.
Qed.

Lemma stop_idempotent_witness :
  fst (Streams.stop 1 world4) = fst (Streams.stop 1 world0) /\
  streams (snd (Streams.stop 1 world4)) = streams world4.
Proof.
  destruct (stop_idempotent world0 1 cam1 eq_refl) as (H1 & H2 & _).
  split; [exact H1 | exact H2].
Defined.

Lemma tick_keeps_timers (i : Interval) (result : MLService.DetectionResult)
    (now : Time) (w : World) (s : Stream) :
  select_eq stream_id (stream_id (interval_stream i)) (streams w) = [s] ->
  is_processing s = true ->
  intervals (Streams.tick i result now w) = intervals w.
Proof.
  intros Hsel Hproc.
  rewrite (tick_processing i result now w s Hsel Hproc).
  destruct (MLService.accidentDetected result); [|reflexivity].
  destruct (handleAccidentDetection_timers (interval_stream i) result
              (Rows.processed i result now w)) as [H _].
  rewrite H. reflexivity.
Qed.

(** X17. A stop followed by a start before the old timer has ticked does not
    end the old loop: the start sets a new timer, and the old timer
    finds the stream monitored again at its next tick and stays set, so
    the stream is polled once more than before. *)
Theorem restart_keeps_old_timer (w : World) (id : uuid) (s : Stream)
    (i : Interval) (result : MLService.DetectionResult) (t now : Time) :
  select_eq stream_id id (streams w) = [s] ->
  stream_id (interval_stream i) = id ->
  let w2 := snd (Streams.start id t (snd (Streams.stop id w))) in
  fst (Streams.start id t (snd (Streams.stop id w))) =
    Json {| Streams.start_message := "Stream monitoring started";
            Streams.started_stream :=
              Streams.start_fields t (Streams.stop_fields s) |} /\
  Streams.polling id w2 =
    Streams.polling id w
    ++ [{| handle := next_handle w;
           interval_stream := Streams.start_fields t (Streams.stop_fields s) |}] /\
  intervals (Streams.tick i result now w2) = intervals w2 /\
  (In i (intervals w) -> In i (intervals (Streams.tick i result now w2))).
Proof.
  intros Hsel Hid w2.
  assert (Hs1 : select_eq stream_id id (streams (snd (Streams.stop id w)))
                = [Streams.stop_fields s]).
  { rewrite (stop_found w id s Hsel). cbn [snd streams].
    rewrite (select_update_same _ stream_id Streams.stop_fields
               (fun _ => eq_refl)), Hsel.
    reflexivity. }
  pose proof (start_found _ id (Streams.stop_fields s) t Hs1) as Hstart.
  assert (Hs2 : select_eq stream_id (stream_id (interval_stream i)) (streams w2)
                = [Streams.start_fields t (Streams.stop_fields s)]).
  { unfold w2. rewrite Hstart, Hid. cbn [snd streams].
    rewrite (select_update_same _ stream_id (Streams.start_fields t)
               (fun _ => eq_refl)), Hs1.
    reflexivity. }
  pose proof (tick_keeps_timers i result now w2 _ Hs2 eq_refl) as Hkeep.
  assert (Hint : intervals w2 =
                 intervals w
                 ++ [{| handle := next_handle w;
                        interval_stream :=
                          Streams.start_fields t (Streams.stop_fields s) |}]).
  { unfold w2. rewrite Hstart. cbn [snd intervals next_handle].
    rewrite (stop_found w id s Hsel). reflexivity. }
  split; [rewrite Hstart; reflexivity|].
  split.
  { unfold Streams.polling. rewrite Hint, filter_app. cbn.
    rewrite (selected_id stream_id id (streams w) s Hsel), Nat.eqb_refl.
    reflexivity. }
  split; [exact Hkeep|].
  intros Hin. rewrite Hkeep, Hint. apply in_or_app. now left.
Qed.

Lemma restart_keeps_old_timer_witness :
  map handle
    (intervals
       (Streams.tick timer0 quiet 2600 (snd (Streams.start 1 2500 world4))))
  = [0; 1].
Proof.
  destruct (restart_keeps_old_timer world0 1 cam1 timer0 quiet 2500 2600
              eq_refl eq_refl) as (_ & _ & Hkeep & _).
  fold world4 in Hkeep. rewrite Hkeep. reflexivity.
Defined.

(** X18. An approval does not stop the monitoring: the stream goes to status
    alert but stays monitored and keeps its timers, and their next ticks
    process it as before. *)
Theorem approve_keeps_polling (w : World) (id : uuid) (p : PendingAlert)
    (s : Stream) (by_ : option string) (t1 t2 : Time) :
  select_eq pa_id id (pending_alerts w) = [p] ->
  select_eq stream_id (pa_stream_id p) (streams w) = [s] ->
  is_processing s = true ->
  valid_severity (JS.or_string (dd_severity (pa_detection_data p)) "high")
    = true ->
  let w' := snd (PendingAlerts.approve id by_ t1 t2 w) in
  select_eq stream_id (pa_stream_id p) (streams w') =
    [PendingAlerts.alert_fields p s] /\
  stream_status (PendingAlerts.alert_fields p s) = alert /\
  is_processing (PendingAlerts.alert_fields p s) = true /\
  intervals w' = intervals w /\
  (forall i result now,
     stream_id (interval_stream i) = pa_stream_id p ->
     intervals (Streams.tick i result now w') = intervals w').
Proof.
  intros Hsel Hstream Hproc Hsev w'.
  destruct (approve_stream_row w id p s by_ t1 t2 Hsel Hstream Hsev)
    as (Hrow & Hst & _).
  fold w' in Hrow.
  assert (Hex : stream_exists (pa_stream_id p) w = true).
  { unfold stream_exists. apply (select_some _ stream_id _ _ s Hstream). }
  assert (Hint : intervals w' = intervals w).
  { unfold w'. rewrite (approve_found w id p by_ t1 t2 Hsel Hsev Hex).
    reflexivity. }
  split; [exact Hrow|]. split; [exact Hst|]. split; [exact Hproc|].
  split; [exact Hint|].
  intros i result now Hid.
  assert (Hs : select_eq stream_id (stream_id (interval_stream i)) (streams w')
               = [PendingAlerts.alert_fields p s]) by (rewrite Hid; exact Hrow).
  exact (tick_keeps_timers i result now w' _ Hs Hproc).
Qed.

Lemma approve_keeps_polling_witness :
  map is_processing (streams world1) = [true] /\
  intervals world1 = intervals world0 /\
  intervals (Streams.tick timer0 quiet 2500 world1) = intervals world1.
Proof.
  destruct (approve_keeps_polling world0 10 awaiting cam1 operator1 1000 1001
              eq_refl eq_refl eq_refl eq_refl) as (_ & _ & _ & Hint & Htick).
  split; [reflexivity|]. split; [exact Hint|].
  exact (Htick timer0 quiet 2500%Z eq_refl).
Defined.

Lemma update_alert_found {A : Type} (fields : Alert -> Alert) (id : uuid)
    (failure : string) (event : Alert -> Broadcast) (body : Alert -> A)
    (w : World) (a : Alert) :
  (forall r, alert_id (fields r) = alert_id r) ->
  select_eq alert_id id (alerts w) = [a] ->
  update_alert fields id failure event body w =
    {| reply := Sent 200 (body (fields a));
       world := with_alerts (update_eq alert_id fields id (alerts w)) w;
       broadcast := [event (fields a)] |}.
Proof.
  intros Hid Hsel. unfold update_alert, with_alerts. cbn [alerts].
  rewrite (select_update_same _ alert_id fields Hid), Hsel. reflexivity.
Qed.

Lemma status_name_round_trip (st : AlertStatus) :
  status_of_name (status_name st) = Some st /\
  String.eqb (status_name st) "" = false.
Proof. destruct st; split; reflexivity. Qed.

(** X19. The alerts router enforces no order of statuses.  Whatever the
    status of an alert, send makes it sent with a new time of sending,
    acknowledge makes it acknowledged, and a change of status to any of
    the four statuses is accepted; each answers 200 with the updated
    row, emits one event, and changes no other alert, no stream and no
    pending alert. *)
Theorem alert_updates_ignore_status (w : World) (id : uuid) (a : Alert)
    (now : Time) (st : AlertStatus) :
  select_eq alert_id id (alerts w) = [a] ->
  let sent_ := send id now w in
  let acked := acknowledge id now w in
  let put := put_status id (Some (status_name st)) w in
  reply sent_ =
    Sent 200 {| message := "Alert sent successfully";
                message_alert := send_fields now a |} /\
  broadcast sent_ = [alert_sent (send_fields now a)] /\
  select_eq alert_id id (alerts (world sent_)) = [send_fields now a] /\
  reply acked =
    Sent 200 {| message := "Alert acknowledged";
                message_alert := acknowledge_fields now a |} /\
  broadcast acked = [alert_acknowledged id] /\
  select_eq alert_id id (alerts (world acked)) = [acknowledge_fields now a] /\
  reply put = Sent 200 (set_status st a) /\
  broadcast put = [alert_status_updated (set_status st a)] /\
  select_eq alert_id id (alerts (world put)) = [set_status st a] /\
  (forall id', id' <> id ->
     select_eq alert_id id' (alerts (world sent_)) =
       select_eq alert_id id' (alerts w) /\
     select_eq alert_id id' (alerts (world acked)) =
       select_eq alert_id id' (alerts w) /\
     select_eq alert_id id' (alerts (world put)) =
       select_eq alert_id id' (alerts w)) /\
  streams (world sent_) = streams w /\
  streams (world acked) = streams w /\
  streams (world put) = streams w /\
  pending_alerts (world sent_) = pending_alerts w /\
  pending_alerts (world acked) = pending_alerts w /\
  pending_alerts (world put) = pending_alerts w.
Proof.
  intros Hsel sent_ acked put.
  assert (Es : sent_ = _) by
    exact (update_alert_found (send_fields now) id _ _ _ w a
             (fun _ => eq_refl) Hsel).
  assert (Ea : acked = _) by
    exact (update_alert_found (acknowledge_fields now) id _ _ _ w a
             (fun _ => eq_refl) Hsel).
  assert (Ep : put = update_alert (set_status st) id
                       "Failed to update alert status" alert_status_updated
                       (fun r => r) w).
  { unfold put, put_status.
    destruct (status_name_round_trip st) as [-> ->]. reflexivity. }
  rewrite (update_alert_found (set_status st) id _ _ _ w a
             (fun _ => eq_refl) Hsel) in Ep.
  rewrite Es, Ea, Ep. unfold with_alerts.
  cbn [reply broadcast world alerts streams pending_alerts].
  rewrite !(select_update_same _ alert_id (send_fields now) (fun _ => eq_refl)),
    !(select_update_same _ alert_id (acknowledge_fields now)
        (fun _ => eq_refl)),
    !(select_update_same _ alert_id (set_status st) (fun _ => eq_refl)), Hsel.
  repeat split; trivial.
  - apply (select_update_other _ alert_id (send_fields now)
             (fun _ => eq_refl)); assumption.
  - apply (select_update_other _ alert_id (acknowledge_fields now)
             (fun _ => eq_refl)); assumption.
  - apply (select_update_other _ alert_id (set_status st)
             (fun _ => eq_refl)); assumption.
Qed.

Lemma alert_updates_ignore_status_witness :
  map alert_status (alerts world1) = [sent] /\
  map alert_status (alerts (world (acknowledge 11 6000 world1))) =
    [acknowledged] /\
  map sent_at
    (alerts (world (send 11 7000 (world (acknowledge 11 6000 world1))))) =
    [Some 7000%Z] /\
  map alert_status
    (alerts (world (send 11 7000 (world (acknowledge 11 6000 world1))))) =
    [sent].
Proof.
  destruct (alert_updates_ignore_status (world (acknowledge 11 6000 world1)) 11
              (acknowledge_fields 6000
                 (PendingAlerts.alertData awaiting 1001 11))
              7000 resolved_ eq_refl) as (_ & _ & H & _).
  split; [reflexivity|]. split; [reflexivity|].
  assert (E : alerts (world (send 11 7000 (world (acknowledge 11 6000 world1))))
              = select_eq alert_id 11
                  (alerts (world (send 11 7000
                                    (world (acknowledge 11 6000 world1))))))
    by reflexivity.
  rewrite E, H. split; reflexivity.
Defined.

Lemma lookup_assign_same (k : string) (v : nat) (o : Counters) :
  lookup k (assign k v o) = Some v.
Proof.
  induction o as [|[k' v'] o IH]; simpl.
  - now rewrite String.eqb_refl.
  - destruct (String.eqb k' k) eqn:E; simpl; rewrite E; [reflexivity | exact IH].
Qed.

Lemma lookup_assign_other (k k' : string) (v : nat) (o : Counters) :
  k' <> k -> lookup k' (assign k v o) = lookup k' o.
Proof.
  intros Hne. induction o as [|[k0 v0] o IH]; simpl.
  - destruct (String.eqb_spec k k'); [congruence | reflexivity].
  - destruct (String.eqb_spec k0 k) as [->|E0]; simpl.
    + destruct (String.eqb_spec k k'); [congruence | reflexivity].
    + destruct (String.eqb k0 k'); [reflexivity | exact IH].
Qed.

Lemma value_increment (k k' : string) (o : Counters) :
  Tally.value k' (increment k o) =
    Tally.value k' o + (if String.eqb k k' then 1 else 0).
Proof.
  unfold Tally.value, increment.
  destruct (String.eqb_spec k k') as [->|Hne].
  - rewrite lookup_assign_same. lia.
  - rewrite lookup_assign_other by congruence. lia.
Qed.

Lemma value_count_alert (k : string) (o : Counters) (a : Alert) :
  k <> ""%string ->
  Tally.value k (count_alert o a) =
    Tally.value k o
    + (if String.eqb (status_name (alert_status a)) k then 1 else 0)
    + (if String.eqb (alert_severity a) k then 1 else 0).
Proof.
  intros Hk. unfold count_alert.
  destruct (String.eqb_spec (alert_severity a) "") as [E|E].
  - rewrite value_increment, E.
    destruct (String.eqb_spec "" k); [congruence | lia].
  - rewrite !value_increment. lia.
Qed.

Lemma value_fold (k : string) (l : list Alert) (o : Counters) :
  k <> ""%string ->
  Tally.value k (fold_left count_alert l o) =
    Tally.value k o + Tally.with_status k l + Tally.with_severity k l.
Proof.
  intros Hk. revert o.
  induction l as [|a l IH]; intros o; simpl.
  - unfold Tally.with_status, Tally.with_severity. simpl. lia.
  - rewrite IH, (value_count_alert k o a Hk).
    unfold Tally.with_status, Tally.with_severity. simpl.
    destruct (String.eqb (status_name (alert_status a)) k);
      destruct (String.eqb (alert_severity a) k); simpl; lia.
Qed.

Lemma tally_partition (l : list Alert) :
  Forall (fun a => valid_severity (alert_severity a) = true) l ->
  Tally.with_status "pending" l + Tally.with_status "sent" l
  + Tally.with_status "acknowledged" l + Tally.with_status "resolved" l
  = length l /\
  Tally.with_severity "critical" l + Tally.with_severity "high" l
  + Tally.with_severity "medium" l + Tally.with_severity "low" l
  = length l /\
  Tally.with_severity "total" l = 0 /\
  Tally.with_severity "pending" l = 0 /\
  Tally.with_severity "sent" l = 0 /\
  Tally.with_severity "acknowledged" l = 0 /\
  Tally.with_severity "resolved" l = 0 /\
  Tally.with_status "total" l = 0 /\
  Tally.with_status "critical" l = 0 /\
  Tally.with_status "high" l = 0 /\
  Tally.with_status "medium" l = 0 /\
  Tally.with_status "low" l = 0.
Proof.
  unfold Tally.with_status, Tally.with_severity.
  induction 1 as [|a l Ha _ IH]; [repeat split|].
  unfold valid_severity in Ha. apply existsb_exists in Ha.
  destruct Ha as (sev & Hin & Hsev). apply String.eqb_eq in Hsev.
  cbn [filter]. rewrite Hsev.
  destruct IH as (I1 & I2 & I3 & I4 & I5 & I6 & I7 & I8 & I9 & I10 & I11 & I12).
  simpl in Hin.
  destruct Hin as [<-|[<-|[<-|[<-|[]]]]];
    destruct (alert_status a); cbn [status_name String.eqb Ascii.eqb Bool.eqb];
    cbn [length]; repeat split; lia.
Qed.

(** X21. The summary of the alerts.  When every alert has one of the four
    severities, the summary counts each alert once by status and once by
    severity: total is the number of alerts, the counts of pending,
    sent, acknowledged and resolved add up to it, and so do the counts
    of critical, high, medium and low; each count is the number of
    alerts with that status or severity. *)
Theorem stats_summary_totals (w : World) :
  checks_ok w ->
  let summary := stats_summary w in
  let n := length (alerts w) in
  Tally.value "total" summary = n /\
  Tally.value "pending" summary + Tally.value "sent" summary
  + Tally.value "acknowledged" summary + Tally.value "resolved" summary = n /\
  Tally.value "critical" summary + Tally.value "high" summary
  + Tally.value "medium" summary + Tally.value "low" summary = n /\
  (forall st, Tally.value (status_name st) summary =
              Tally.with_status (status_name st) (alerts w)) /\
  (forall sev, valid_severity sev = true ->
               Tally.value sev summary = Tally.with_severity sev (alerts w)).
Proof.
  intros Hc summary n. unfold checks_ok in Hc.
  destruct (tally_partition (alerts w) Hc)
    as (I1 & I2 & I3 & I4 & I5 & I6 & I7 & I8 & I9 & I10 & I11 & I12).
  assert (Hv : forall k, k <> ""%string ->
            Tally.value k summary =
              Tally.value k
                [("total", n); ("pending", 0); ("sent", 0);
                 ("acknowledged", 0); ("resolved", 0); ("critical", 0);
                 ("high", 0); ("medium", 0); ("low", 0)]%string
              + Tally.with_status k (alerts w)
              + Tally.with_severity k (alerts w)).
  { intros k Hk. unfold summary, stats_summary. apply value_fold, Hk. }
  split; [rewrite Hv by discriminate; cbn [Tally.value lookup String.eqb
            Ascii.eqb Bool.eqb]; lia|].
  split; [rewrite !Hv by discriminate; cbn [Tally.value lookup String.eqb
            Ascii.eqb Bool.eqb]; lia|].
  split; [rewrite !Hv by discriminate; cbn [Tally.value lookup String.eqb
            Ascii.eqb Bool.eqb]; lia|].
  split.
  - intros st.
    destruct st; rewrite Hv by discriminate;
      cbn [status_name Tally.value lookup String.eqb Ascii.eqb Bool.eqb]; lia.
  - intros sev Hsev. unfold valid_severity in Hsev.
    apply existsb_exists in Hsev. destruct Hsev as (k & Hin & Hk).
    apply String.eqb_eq in Hk. subst k. simpl in Hin.
    destruct Hin as [<-|[<-|[<-|[<-|[]]]]]; rewrite Hv by discriminate;
      cbn [Tally.value lookup String.eqb Ascii.eqb Bool.eqb]; lia.
Qed.

Lemma stats_summary_totals_witness :
  Tally.value "total" (stats_summary world1) = 1 /\
  Tally.value "sent" (stats_summary world1) = 1 /\
  Tally.value "high" (stats_summary world1) = 1.
Proof.
  destruct (stats_summary_totals world1
              (proj1 (proj2 (proj2 RoutesConsistent.world1_consistent))))
    as (Ht & _ & _ & Hst & Hsev).
  split; [exact Ht|]. split; [exact (Hst sent) | exact (Hsev "high"%string eq_refl)].
Defined.


End RoutesFacts.

(** * From a processed frame to a pending alert *)

Module PipelineFacts.

Import MLService Reference Geometry MLServiceFacts MLServiceMoreFacts.
Import VideoSource Supabase.
Local Open Scope R_scope.

Section Pipeline.

Variable random : nat -> R.
Hypothesis random_range : forall n, 0 <= random n < 1.

Lemma processVideoStream_parts (streamUrl : string) (now_frame now : Time)
    (k : nat) :
  let p := processVideoStream random streamUrl now_frame now k in
  resolved_after (fst p) = 2000 + random k * 3000 /\
  resolved_with (fst p) = fst (processFrame random now (S k)) /\
  snd p = snd (processFrame random now (S k)).
Proof.
  unfold processVideoStream.
  destruct (processFrame random now (S k)) as [result k']. repeat split.
Qed.

(** X23. [processVideoStream] resolves after 2000 + 3000 * (first draw)
    milliseconds, between 2 and 5 seconds, and makes 15 to 57 draws.
    Its result either reports no accident, with confidence 0, or an
    accident with a confidence in (0.7, 1]; the severity the polling
    loop then writes into the pending alert is the severity the service
    gives that confidence: critical above 0.85, high above 0.75, medium
    otherwise, never low. *)
Theorem processVideoStream_alert (streamUrl : string) (now_frame now : Time)
    (k : nat) (stream : Stream) :
  let p := processVideoStream random streamUrl now_frame now k in
  let r := resolved_with (fst p) in
  let k' := snd p in
  resolved_after (fst p) = 2000 + random k * 3000 /\
  2000 <= resolved_after (fst p) <= 5000 /\
  (k + 15 <= k' <= k + 57)%nat /\
  ((accidentDetected r = false /\ confidence r = 0) \/
   (accidentDetected r = true /\ 0.7 < confidence r <= 1 /\
    dd_severity (Streams.detectionData stream r) =
      Some (calculateSeverity (confidence r) 0) /\
    In (calculateSeverity (confidence r) 0)
       ["critical"; "high"; "medium"]%string)).
Proof.
  intros p r k'. unfold r, k', p.
  destruct (processVideoStream_parts streamUrl now_frame now k)
    as (Ea & Er & Ek).
  rewrite Ea, Er, Ek. clear Ea Er Ek.
  split; [reflexivity|]. split; [pose proof (random_range k); lra|].
  unfold processFrame.
  pose proof (vehicle_count_range random random_range (S k)) as Hn.
  set (n := Z.to_nat (JS.floor (random (S k) * 5) + 2)) in *.
  destruct (vehicleLoop_vehicles random random_range now n 0 (S k + 1))
    as (Hl & _ & Hall).
  assert (Hne : fst (vehicleLoop random now n 0 (S k + 1)) <> []).
  { intros E0. rewrite E0 in Hl. simpl in Hl. lia. }
  assert (Hshape : exists extra k1,
            performObjectDetection random now (S k) =
              (fst (vehicleLoop random now n 0 (S k + 1)) ++ extra, k1) /\
            (k + 15 <= k1 <= k + 2 + 6 * n + 4)%nat /\
            Forall (fun d => det_class d = "person"%string /\
                             0.75 <= det_confidence d <= 1) extra).
  { destruct (performObjectDetection_cases random random_range now (S k))
      as [[Hp E]|[Hp E]]; fold n in E; rewrite E.
    - eexists. eexists. split; [reflexivity|]. split; [lia|].
      constructor; [|constructor]. split; [reflexivity|].
      cbn [det_confidence newPerson].
      pose proof (random_range (S k + 1 + 6 * n + 1)). lra.
    - exists [], (S k + 1 + 6 * n + 1)%nat. rewrite app_nil_r.
      split; [reflexivity|]. split; [lia | constructor]. }
  destruct Hshape as (extra & k1 & E & Hk1 & Hextra). rewrite E.
  set (ds := fst (vehicleLoop random now n 0 (S k + 1)) ++ extra).
  assert (Hv : length (filter isVehicle ds) = n).
  { destruct (generated_summary _ extra Hne Hall Hextra) as (Hv & _).
    unfold analyzeFrameContext in Hv. cbn [vehicleCount] in Hv.
    unfold ds. rewrite Hv. exact Hl. }
  unfold analyzeDetections.
  pose proof (collect_described random now (pairs (filter isVehicle ds)) k1)
    as Hdesc.
  pose proof (collect_counts random now (pairs (filter isVehicle ds)) k1)
    as (C1 & _ & C3).
  pose proof (pairs_length (filter isVehicle ds)) as Hp. rewrite Hv in Hp.
  rewrite <- detectAccidents_collect in Hdesc, C1, C3.
  destruct (detectAccidents random now ds k1) as [accs k2].
  cbn [fst snd] in *.
  split; [nia|].
  destruct accs as [|a rest].
  - left. split; reflexivity.
  - right. split; [reflexivity|].
    unfold frameResult. cbn [confidence length Nat.ltb Nat.leb].
    assert (Hc : 0.7 < calculateAccidentConfidence (a :: rest) <= 1).
    { apply aggregate_bounds; [discriminate|].
      eapply Forall_impl; [|exact Hdesc]. intros b (_ & _ & Hb). exact Hb. }
    split; [exact Hc|].
    set (c := calculateAccidentConfidence (a :: rest)) in *.
    split.
    + unfold Streams.detectionData, calculateSeverity.
      cbn [dd_severity confidence]. fold c.
      destruct (Rlt_dec 0.85 c); [reflexivity|].
      destruct (Rlt_dec 0.75 c); [reflexivity|].
      destruct (Rlt_dec 0.65 c); [reflexivity | lra].
    + apply severity_above_threshold. lra.
Qed.

End Pipeline.

Import Scenario.

Lemma processVideoStream_alert_witness :
  2000 <= resolved_after (fst (processVideoStream fixed_draw "cam-1" 0 0 0))
       <= 5000 /\
  (15 <= snd (processVideoStream fixed_draw "cam-1" 0 0 0) <= 57)%nat.
Proof.
  destruct (processVideoStream_alert fixed_draw fixed_draw_range "cam-1" 0%Z
              0%Z 0%nat cam1) as (_ & Hd & Hk & _).
  split; [exact Hd | exact Hk].
Defined.

End PipelineFacts.
